(** * thousand-curses: the codec layer ([codec.py])

    A shallow embedding of the byte/text codecs of [codec.py] and the
    properties its specification states about them.

    Data model.
    - A Python [bytes] object is a [list byte] (the 256-constructor type of
      the standard library): no element is ever out of range.
    - A Python [int] is a [Z].
    - A Python [str] is a list of Unicode code points, each an [N].
    - A raised exception is the [Raise] case of [result]; the exception
      classes are the ones the interpreter raises in this code. *)

From Stdlib Require Import ZArith NArith List String Ascii Lia.
From Stdlib Require Import Strings.Byte HexadecimalString.
From stdpp Require Import base option list gmap.

Local Open Scope Z_scope.

(** * Exceptions and results *)

Inductive exn : Type :=
| IndexError
| KeyError
| ValueError
| NotImplementedError (msg : string).

Inductive result (A : Type) : Type :=
| Ok (a : A)
| Raise (e : exn).

Arguments Ok {A} a.
Arguments Raise {A} e.

#[global] Instance result_ret : MRet result := fun A a => Ok a.
#[global] Instance result_bind : MBind result := fun A B f r =>
  match r with
  | Ok a => f a
  | Raise e => Raise e
  end.
#[global] Instance result_fmap : FMap result := fun A B f r =>
  match r with
  | Ok a => Ok (f a)
  | Raise e => Raise e
  end.

Definition is_ok {A} (r : result A) : bool :=
  match r with Ok _ => true | Raise _ => false end.

(** * The parts of the Python runtime the codecs call *)

Module Py.

(** [str]: a sequence of code points. *)
Definition str : Type := list N.

(** [bytes]: a sequence of 8-bit values. *)
Definition bytes : Type := list byte.

(** A string literal of the source, as code points. *)
Definition lit (s : string) : str :=
  map N_of_ascii (list_ascii_of_string s).

(** Iterating over a [bytes] object, or indexing it, yields [int]s. *)
Definition int_of_byte (b : byte) : Z := Z.of_N (Byte.to_N b).

(** [bytes(l)] for a list of ints: [ValueError] unless every element is in
    [range(0, 256)]. *)
Definition byte_of_int (i : Z) : result byte :=
  if (0 <=? i) && (i <? 256) then
    match Byte.of_N (Z.to_N i) with
    | Some b => Ok b
    | None => Raise ValueError
    end
  else Raise ValueError.

Definition bytes_of_ints (l : list Z) : result bytes := mapM byte_of_int l.

(** [bytestr[0]]: [IndexError] on the empty buffer. *)
Definition first (bs : bytes) : result Z :=
  match bs with
  | b :: _ => Ok (int_of_byte b)
  | [] => Raise IndexError
  end.

(** [l[i]] on a list of ints, for an index [i >= 0]. *)
Definition getitem (l : list Z) (i : Z) : result Z :=
  if i <? 0 then
    match l !! Z.to_nat (Z.of_nat (length l) + i) with
    | Some x => if 0 <=? Z.of_nat (length l) + i then Ok x else Raise IndexError
    | None => Raise IndexError
    end
  else
    match l !! Z.to_nat i with
    | Some x => Ok x
    | None => Raise IndexError
    end.

(** [list(range(a, b))]. *)
Definition range (a b : Z) : list Z :=
  map (fun k => a + Z.of_nat k) (seq 0 (Z.to_nat (b - a))).

(** [chr(i)]: [ValueError] outside [range(0x110000)]. *)
Definition chr (i : Z) : result N :=
  if (0 <=? i) && (i <? 1114112) then Ok (Z.to_N i) else Raise ValueError.

(** Slices. [s[k:]] with [k] possibly negative, [s[i:j]] for
    [0 <= i <= j], and [s[k::2]] for [k >= 0]. *)
Definition slice_from {A} (k : Z) (s : list A) : list A :=
  let n := Z.of_nat (length s) in
  let start := if k <? 0 then Z.max (n + k) 0 else Z.min k n in
  drop (Z.to_nat start) s.

Definition slice {A} (i j : Z) (s : list A) : list A :=
  take (Z.to_nat (j - i)) (drop (Z.to_nat i) s).

Fixpoint step2 {A} (s : list A) : list A :=
  match s with
  | x :: _ :: r => x :: step2 r
  | [x] => [x]
  | [] => []
  end.

Definition slice_step2 {A} (k : nat) (s : list A) : list A :=
  step2 (drop k s).

(** [sep.join(l)]. *)
Fixpoint join (sep : str) (l : list str) : str :=
  match l with
  | [] => []
  | [x] => x
  | x :: r => x ++ sep ++ join sep r
  end.

(** [str.isspace] on one character: the interpreter's whitespace table
    (bidirectional classes WS, B and S, and category Zs). *)
Definition isspace (c : N) : bool :=
  ((9 <=? c) && (c <=? 13) || (28 <=? c) && (c <=? 32)
   || (c =? 133) || (c =? 160) || (c =? 5760)
   || (8192 <=? c) && (c <=? 8202)
   || (c =? 8232) || (c =? 8233) || (c =? 8239) || (c =? 8287)
   || (c =? 12288))%N.

(** [s.split()]: the maximal runs of non-whitespace characters. [cur]
    holds the token being read, reversed. *)
Fixpoint split_go (s : str) (cur : str) : list str :=
  match s with
  | [] => match cur with [] => [] | _ => [rev cur] end
  | c :: r =>
      if isspace c then
        match cur with
        | [] => split_go r []
        | _ => rev cur :: split_go r []
        end
      else split_go r (c :: cur)
  end.

Definition split (s : str) : list str := split_go s [].

(** [chr(b).isprintable()] for a code point of the Latin-1 range, which is
    all [chr] of a byte produces: the categories Cc (U+0000-U+001F,
    U+007F-U+009F), Zs other than the ASCII space (U+00A0) and Cf (U+00AD)
    are not printable. *)
Definition isprintable_latin1 (c : N) : bool :=
  ((32 <=? c) && (c <=? 126) || (161 <=? c) && (c <=? 255) && negb (c =? 173))%N.

(** [hex(n)]: sign, the prefix 0x and the lowercase digits. *)
Definition hex (n : Z) : str :=
  (if n <? 0 then lit "-" else []) ++ lit "0x"
  ++ lit (NilZero.string_of_uint (N.to_hex_uint (Z.abs_N n))).

(** [s.upper()] on ASCII text, which is all [hex] produces. *)
Definition upper_char (c : N) : N :=
  if ((97 <=? c) && (c <=? 122))%N then (c - 32)%N else c.

Definition upper (s : str) : str := map upper_char s.

(** ** [int(s, base=16)] *)

Section Int16.

(** The decimal digit value of a character of category Nd, from the
    interpreter's Unicode database (which is not part of this
    repository); consulted for code points from 127 up only. *)
Variable unicode_decimal : N -> option N.

(** The text is first brought to ASCII: Unicode spaces become a space,
    Unicode decimal digits their ASCII digit, anything else a question
    mark. *)
Definition to_ascii (c : N) : N :=
  if (c <? 127)%N then c
  else if isspace c then 32%N
  else match unicode_decimal c with
       | Some d => (48 + d)%N
       | None => 63%N
       end.

(** The C-locale whitespace test of the integer parser. *)
Definition ascii_space (c : N) : bool :=
  ((9 <=? c) && (c <=? 13) || (c =? 32))%N.

(** The value of a base-16 digit. *)
Definition digit_value (c : N) : option Z :=
  if ((48 <=? c) && (c <=? 57))%N then Some (Z.of_N c - 48)
  else if ((97 <=? c) && (c <=? 102))%N then Some (Z.of_N c - 87)
  else if ((65 <=? c) && (c <=? 70))%N then Some (Z.of_N c - 55)
  else None.

Fixpoint skip_spaces (a : list N) : list N :=
  match a with
  | c :: r => if ascii_space c then skip_spaces r else a
  | [] => []
  end.

(** The digit loop: digits and single underscores between them.
    [prev_us] tells whether the previous character was an underscore,
    [acc] is the value read so far and [n] the number of digits. The
    loop stops at the first character that is neither; stopping right
    after an underscore is an error. *)
Fixpoint scan (a : list N) (prev_us : bool) (acc : Z) (n : nat)
  : option (Z * nat * list N) :=
  match a with
  | [] => if prev_us then None else Some (acc, n, [])
  | c :: r =>
      if (c =? 95)%N then
        if prev_us then None else scan r true acc n
      else
        match digit_value c with
        | Some d => scan r false (16 * acc + d) (S n)
        | None => if prev_us then None else Some (acc, n, a)
        end
  end.

(** An optional sign. *)
Definition strip_sign (a : list N) : bool * list N :=
  match a with
  | c :: r =>
      if (c =? 43)%N then (false, r)
      else if (c =? 45)%N then (true, r)
      else (false, a)
  | [] => (false, [])
  end.

(** An optional prefix 0x or 0X, and one underscore after it. *)
Definition strip_prefix (a : list N) : list N :=
  match a with
  | c :: x :: r =>
      if ((c =? 48) && ((x =? 120) || (x =? 88)))%N then
        match r with
        | u :: r' => if (u =? 95)%N then r' else r
        | [] => r
        end
      else a
  | _ => a
  end.

(** The digits: no leading underscore, at least one digit. *)
Definition digits (a : list N) : result (Z * list N) :=
  match a with
  | c :: _ =>
      if (c =? 95)%N then Raise ValueError
      else
        match scan a false 0 0 with
        | Some (v, n, rest) =>
            if (n =? 0)%nat then Raise ValueError else Ok (v, rest)
        | None => Raise ValueError
        end
  | [] => Raise ValueError
  end.

Definition int16 (s : str) : result Z :=
  let a := skip_spaces (map to_ascii s) in
  let (neg, a) := strip_sign a in
  p ← digits (strip_prefix a);
  match skip_spaces p.2 with
  | [] => Ok (if neg then - p.1 else p.1)
  | _ => Raise ValueError
  end.

End Int16.

End Py.

(** * The codec classes *)

Inductive class : Type :=
| Hexify
| HexifySpaces
| ASCII
| MonospaceASCIIByte
| MonospaceASCII
| MajinTenseiIIByte
| Mt2GarbageTextPair.

Definition class_name (cls : class) : string :=
  match cls with
  | Hexify => "Hexify"
  | HexifySpaces => "HexifySpaces"
  | ASCII => "ASCII"
  | MonospaceASCIIByte => "MonospaceASCIIByte"
  | MonospaceASCII => "MonospaceASCII"
  | MajinTenseiIIByte => "MajinTenseiIIByte"
  | Mt2GarbageTextPair => "Mt2GarbageTextPair"
  end.

(** The base class: both methods are class methods that raise. A subclass
    that does not define a method inherits the one below, bound to the
    subclass. *)
Module Codec.

Definition encode (cls : class) (s : Py.str) : result Py.bytes :=
  Raise (NotImplementedError
           ("Encoder for " ++ class_name cls ++ " not implemented.")).

Definition decode (cls : class) (bytestr : Py.bytes) : result Py.str :=
  Raise (NotImplementedError
           ("Decoder for " ++ class_name cls ++ " not implemented.")).

End Codec.

Module Hexify.

Section Encode.
Variable unicode_decimal : N -> option N.

Definition encode (s : Py.str) : result Py.bytes :=
  ints ← mapM (fun i => Py.int16 unicode_decimal (Py.slice i (i + 2) s))
              (Py.range 0 (Z.of_nat (length s)));
  Py.bytes_of_ints ints.
End Encode.

(** One element of the generator of [decode]. *)
Definition hex2 (n : Z) : Py.str :=
  Py.upper (Py.slice_from (-2) (Py.lit "0" ++ Py.slice_from 2 (Py.hex n))).

Definition decode (bytestr : Py.bytes) : result Py.str :=
  Ok (Py.join [] (map hex2 (map Py.int_of_byte bytestr))).

End Hexify.

Module HexifySpaces.

Section Encode.
Variable unicode_decimal : N -> option N.

Definition encode (s : Py.str) : result Py.bytes :=
  ints ← mapM (Py.int16 unicode_decimal) (Py.split s);
  Py.bytes_of_ints ints.
End Encode.

Definition decode (bytestr : Py.bytes) : result Py.str :=
  toks ← mapM (fun n => b ← Py.bytes_of_ints [n]; Hexify.decode b)
              (map Py.int_of_byte bytestr);
  Ok (Py.join (Py.lit " ") toks).

End HexifySpaces.

Module ASCII.

Definition decode (bytestr : Py.bytes) : result Py.str :=
  cs ← mapM (fun b => c ← Py.chr b; Ok [c]) (map Py.int_of_byte bytestr);
  Ok (Py.join [] cs).

End ASCII.

Module MonospaceASCIIByte.

Definition decode (bytestr : Py.bytes) : result Py.str :=
  b ← Py.first bytestr;
  let replacements := Py.range (2 ^ 8) (2 ^ 9) in
  c ← Py.chr b;
  if negb (Py.isprintable_latin1 c) then
    r ← Py.getitem replacements b;
    c' ← Py.chr r;
    Ok [c']
  else
    Ok [c].

End MonospaceASCIIByte.

Module MonospaceASCII.

Definition decode (bytestr : Py.bytes) : result Py.str :=
  cs ← mapM (fun n => b ← Py.bytes_of_ints [n]; MonospaceASCIIByte.decode b)
            (map Py.int_of_byte bytestr);
  Ok (Py.join [] cs).

End MonospaceASCII.

Module MajinTenseiIIByte.

Section Table.
(** The dictionary read from [resources/hexmap.yaml] when the class is
    defined; the resource is not part of the sources at hand. Keys are
    byte values, values are strings. *)
Variable transliter : gmap Z Py.str.

Definition decode (bytestr : Py.bytes) : result Py.str :=
  b ← Py.first bytestr;
  match transliter !! b with
  | Some t => Ok t
  | None => Raise KeyError
  end.
End Table.

End MajinTenseiIIByte.

Module Mt2GarbageTextPair.

Section Table.
Variable transliter : gmap Z Py.str.

Definition decode (bytestr : Py.bytes) : result Py.str :=
  garbage ←
    (cs ← mapM (fun n => b ← Py.bytes_of_ints [n];
                         MonospaceASCIIByte.decode b)
               (map Py.int_of_byte (Py.slice_step2 1 bytestr));
     Ok (Py.join [] cs));
  text ←
    (cs ← mapM (fun n => b ← Py.bytes_of_ints [n];
                         MajinTenseiIIByte.decode transliter b)
               (map Py.int_of_byte (Py.slice_step2 0 bytestr));
     Ok (Py.join [] cs));
  Ok (garbage ++ text).
End Table.

End Mt2GarbageTextPair.

(** ** Method resolution

    [own_encode] and [own_decode] list the methods each class body defines;
    a call on a class runs the class's own method when there is one and the
    inherited [Codec] method otherwise. *)

Section Classes.
Variable unicode_decimal : N -> option N.
Variable transliter : gmap Z Py.str.

Definition own_encode (cls : class) : option (Py.str -> result Py.bytes) :=
  match cls with
  | Hexify => Some (Hexify.encode unicode_decimal)
  | HexifySpaces => Some (HexifySpaces.encode unicode_decimal)
  | _ => None
  end.

Definition own_decode (cls : class) : option (Py.bytes -> result Py.str) :=
  match cls with
  | Hexify => Some Hexify.decode
  | HexifySpaces => Some HexifySpaces.decode
  | ASCII => Some ASCII.decode
  | MonospaceASCIIByte => Some MonospaceASCIIByte.decode
  | MonospaceASCII => Some MonospaceASCII.decode
  | MajinTenseiIIByte => Some (MajinTenseiIIByte.decode transliter)
  | Mt2GarbageTextPair => Some (Mt2GarbageTextPair.decode transliter)
  end.

Definition call_encode (cls : class) (s : Py.str) : result Py.bytes :=
  match own_encode cls with
  | Some f => f s
  | None => Codec.encode cls s
  end.

Definition call_decode (cls : class) (bytestr : Py.bytes) : result Py.str :=
  match own_decode cls with
  | Some f => f bytestr
  | None => Codec.decode cls bytestr
  end.

End Classes.

(** The module-level dictionary [names]. *)
Definition names : list (string * class) :=
  [ ("Hexify", Hexify); ("HexifySpaces", HexifySpaces); ("ASCII", ASCII);
    ("MonospaceASCIIByte", MonospaceASCIIByte);
    ("MonospaceASCII", MonospaceASCII);
    ("MajinTenseiIIByte", MajinTenseiIIByte);
    ("Mt2GarbageTextPair", Mt2GarbageTextPair) ]%string.

(** Indexing the dictionary: [names[name]], [KeyError] for a name that is
    not a key. *)
Fixpoint dict_getitem {A} (d : list (string * A)) (name : string) : result A :=
  match d with
  | [] => Raise KeyError
  | (k, v) :: r => if String.eqb k name then Ok v else dict_getitem r name
  end.

(** * Specification-side vocabulary *)

(** The uppercase hexadecimal digit of a value below sixteen. *)
Definition upper_hex_digit (d : Z) : N :=
  Z.to_N (if d <? 10 then 48 + d else 55 + d).

(** The two-character, zero-padded, uppercase representation of a byte. *)
Definition hex_pair (b : byte) : Py.str :=
  [upper_hex_digit (Py.int_of_byte b / 16);
   upper_hex_digit (Py.int_of_byte b mod 16)].

(** Splitting a text at every occurrence of one separator character, as
    [s.split(sep)] does: the pieces between separators, empty ones
    included, so the empty text has the one piece [[]]. *)
Fixpoint split_on_go (sep : N) (s cur : Py.str) : list Py.str :=
  match s with
  | [] => [rev cur]
  | c :: r =>
      if (c =? sep)%N then rev cur :: split_on_go sep r []
      else split_on_go sep r (c :: cur)
  end.

Definition split_on (sep : N) (s : Py.str) : list Py.str :=
  split_on_go sep s [].

(** ** Base-16 integer literals

    The texts [int(s, base=16)] is documented to accept, once brought to
    ASCII: whitespace, an optional sign, an optional prefix 0x or 0X,
    hexadecimal digits with single underscores allowed between them (and
    after the prefix), whitespace. The last index of [digits_tail acc t v]
    is the value of the digits of [t] read after a value [acc]. *)
Inductive digits_tail : Z -> list N -> Z -> Prop :=
| tail_nil acc : digits_tail acc [] acc
| tail_digit acc c d t v :
    Py.digit_value c = Some d ->
    digits_tail (16 * acc + d) t v ->
    digits_tail acc (c :: t) v
| tail_us_digit acc c d t v :
    Py.digit_value c = Some d ->
    digits_tail (16 * acc + d) t v ->
    digits_tail acc (95%N :: c :: t) v.

Inductive sign : Type := NoSign | Plus | Minus.

Definition sign_text (sg : sign) : list N :=
  match sg with
  | NoSign => []
  | Plus => [43%N]
  | Minus => [45%N]
  end.

Definition signed (sg : sign) (v : Z) : Z :=
  match sg with
  | Minus => - v
  | _ => v
  end.

Definition prefixes : list (list N) :=
  [ []; [48; 120]; [48; 88]; [48; 120; 95]; [48; 88; 95] ]%N.

Inductive hex_literal : list N -> Z -> Prop :=
| hex_literal_intro ws1 sg prefix c d t ws2 v :
    Forall (fun x => Py.ascii_space x = true) ws1 ->
    Forall (fun x => Py.ascii_space x = true) ws2 ->
    prefix ∈ prefixes ->
    Py.digit_value c = Some d ->
    digits_tail d t v ->
    hex_literal (ws1 ++ sign_text sg ++ prefix ++ c :: t ++ ws2) (signed sg v).

(** A token that [int(token, 16)] reads as the value of a byte: brought to
    ASCII, it is a base-16 integer literal with a value in 0..255. *)
Definition byte_literal (unicode_decimal : N -> option N) (tok : Py.str)
  : Prop :=
  exists v, hex_literal (map (Py.to_ascii unicode_decimal) tok) v
            /\ 0 <= v <= 255.

(** The value of a string of hexadecimal digits, most significant first. *)
Definition hex_value (ds : Py.str) : Z :=
  fold_left (fun acc c => 16 * acc + default 0 (Py.digit_value c)) ds 0.

(** A hexadecimal number in the plain sense, for one byte: a non-empty
    string of the digits 0-9, a-f and A-F, and of nothing else, whose value
    is in 0..255. *)
Definition plain_hex_byte (tok : Py.str) : Prop :=
  tok <> []
  /\ Forall (fun c => c ∈ Py.lit "0123456789abcdefABCDEF") tok
  /\ 0 <= hex_value tok <= 255.

(** Where the digit loop stops: at the end, or before a character that is
    neither a digit nor an underscore. *)
Definition stop (rest : list N) : Prop :=
  match rest with
  | [] => True
  | c :: _ => c <> 95%N /\ Py.digit_value c = None
  end.

(** The body of [HexifySpaces.encode] on the list of tokens. *)
Abbreviation encode_tokens ud toks :=
  (ints ← mapM (Py.int16 ud) toks; Py.bytes_of_ints ints).

(** A token: non-empty and free of whitespace. *)
Definition token (t : Py.str) : Prop :=
  t <> [] /\ Forall (fun c => Py.isspace c = false) t.

(** The classes that define no [encode]. *)
Definition decode_only : list class :=
  [ASCII; MonospaceASCIIByte; MonospaceASCII; MajinTenseiIIByte;
   Mt2GarbageTextPair].

(** ** Sample data

    A fragment of the Unicode database (the Arabic-Indic digits U+0660 to
    U+0669, decimal values 0 to 9) and a one-entry transliteration table,
    for the concrete evaluations below. *)
Definition arabic_indic (c : N) : option N :=
  if ((1632 <=? c) && (c <=? 1641))%N then Some (c - 1632)%N else None.

Definition sample_transliter : gmap Z Py.str := {[ 65 := [12354%N] ]}.

(** * Auxiliary facts *)

(** Case analysis on every comparison of code points in sight. *)
Ltac split_tests :=
  repeat match goal with
    | H : context [N.leb ?a ?b] |- _ => destruct (N.leb_spec a b)
    | H : context [N.eqb ?a ?b] |- _ => destruct (N.eqb_spec a b)
    | H : context [N.ltb ?a ?b] |- _ => destruct (N.ltb_spec a b)
    | |- context [N.leb ?a ?b] => destruct (N.leb_spec a b)
    | |- context [N.eqb ?a ?b] => destruct (N.eqb_spec a b)
    | |- context [N.ltb ?a ?b] => destruct (N.ltb_spec a b)
    end.

Section ResultFacts.
Context {A B : Type}.

Lemma mapM_result_cons (f : A -> result B) x l :
  mapM f (x :: l) = y ← f x; k ← mapM f l; Ok (y :: k).
Proof. reflexivity. Qed.

Lemma mapM_result_total (f : A -> result B) (g : A -> B) l :
  (forall x, x ∈ l -> f x = Ok (g x)) -> mapM f l = Ok (map g l).
Proof.
  induction l as [|x l IH]; intros Hf; [reflexivity|].
  rewrite mapM_result_cons, Hf by left.
  cbn. rewrite IH; [reflexivity|].
  intros y Hy. apply Hf. now right.
Qed.

Lemma mapM_result_ext (f g : A -> result B) l :
  (forall x, x ∈ l -> f x = g x) -> mapM f l = mapM g l.
Proof.
  induction l as [|x l IH]; intros Hf; [reflexivity|].
  rewrite !mapM_result_cons, Hf by left.
  rewrite IH; [reflexivity|].
  intros y Hy. apply Hf. now right.
Qed.

Lemma mapM_result_map {C} (h : C -> A) (f : A -> result B) l :
  mapM f (map h l) = mapM (fun x => f (h x)) l.
Proof.
  induction l as [|x l IH]; [reflexivity|].
  cbn [map]. rewrite !mapM_result_cons, IH. reflexivity.
Qed.
End ResultFacts.

Lemma join_empty_concat (l : list Py.str) : Py.join [] l = concat l.
Proof.
  induction l as [|x [|y l] IH]; [reflexivity| |].
  - cbn. now rewrite app_nil_r.
  - change (Py.join [] (x :: y :: l)) with (x ++ [] ++ Py.join [] (y :: l)).
    rewrite IH. reflexivity.
Qed.

(** Rebuilding a one-element [bytes] from an element of a [bytes]. *)
Lemma bytes_of_int_of_byte (b : byte) :
  Py.bytes_of_ints [Py.int_of_byte b] = Ok [b].
Proof. destruct b; reflexivity. Qed.

Lemma int_of_byte_range (b : byte) : 0 <= Py.int_of_byte b < 256.
Proof.
  unfold Py.int_of_byte. pose proof (Byte.to_N_bounded b) as H. lia.
Qed.

Lemma hex2_hex_pair (b : byte) : Hexify.hex2 (Py.int_of_byte b) = hex_pair b.
Proof. destruct b; vm_compute; reflexivity. Qed.

Lemma getitem_range (a b i : Z) :
  0 <= i < b - a -> Py.getitem (Py.range a b) i = Ok (a + i).
Proof.
  intros Hi. unfold Py.getitem, Py.range.
  destruct (Z.ltb_spec i 0) as [?|_]; [lia|].
  rewrite list_lookup_fmap, lookup_seq_lt by lia.
  cbn. f_equal. lia.
Qed.

Lemma Hexify_decode_eq (bs : Py.bytes) :
  Hexify.decode bs = Ok (concat (map hex_pair bs)).
Proof.
  unfold Hexify.decode. rewrite join_empty_concat, map_map.
  do 2 f_equal. apply map_ext. intros b. apply hex2_hex_pair.
Qed.

Lemma concat_pairs_length (bs : Py.bytes) :
  length (concat (map hex_pair bs)) = (2 * length bs)%nat.
Proof.
  induction bs as [|b bs IH]; [reflexivity|].
  cbn [map concat]. rewrite length_app, IH. cbn. lia.
Qed.

(** * Hexify.decode *)

(** C4. For every byte buffer, [Hexify.decode] returns, without raising,
    the concatenation in buffer order of one group per byte; each group
    is exactly two uppercase hexadecimal characters, the high digit first
    (so values below sixteen are zero-padded), and the text is exactly twice
    as long as the buffer. *)
Theorem Hexify_decode_two_digits_per_byte (bs : Py.bytes) :
  exists out,
    Hexify.decode bs = Ok out
    /\ out = concat (map hex_pair bs)
    /\ length out = (2 * length bs)%nat
    /\ Forall (fun b => length (hex_pair b) = 2%nat
                        /\ Forall (fun c => c ∈ Py.lit "0123456789ABCDEF")
                                  (hex_pair b)) bs.
Proof.
  exists (concat (map hex_pair bs)). split; [apply Hexify_decode_eq|].
  split; [reflexivity|]. split; [apply concat_pairs_length|].
  apply Forall_forall. intros b _. split; [reflexivity|].
  destruct b; vm_compute; repeat constructor.
Qed.

(** * MonospaceASCIIByte.decode *)

Lemma chr_int_of_byte (b : byte) :
  Py.chr (Py.int_of_byte b) = Ok (Byte.to_N b).
Proof.
  pose proof (int_of_byte_range b) as H. unfold Py.chr.
  destruct (Z.leb_spec 0 (Py.int_of_byte b)); [|lia].
  destruct (Z.ltb_spec (Py.int_of_byte b) 1114112); [|lia].
  cbn. unfold Py.int_of_byte. now rewrite N2Z.id.
Qed.

Lemma replacement_of_byte (b : byte) :
  (r ← Py.getitem (Py.range (2 ^ 8) (2 ^ 9)) (Py.int_of_byte b); Py.chr r)
  = Ok (256 + Byte.to_N b)%N.
Proof.
  pose proof (int_of_byte_range b) as H.
  rewrite getitem_range by (cbn; lia). cbn [mbind result_bind].
  unfold Py.chr.
  destruct (Z.leb_spec 0 (2 ^ 8 + Py.int_of_byte b)); [|cbn in *; lia].
  destruct (Z.ltb_spec (2 ^ 8 + Py.int_of_byte b) 1114112); [|cbn in *; lia].
  cbn [andb]. f_equal. unfold Py.int_of_byte. lia.
Qed.

Lemma MonospaceASCIIByte_decode_cons (b : byte) (rest : Py.bytes) :
  MonospaceASCIIByte.decode (b :: rest)
  = Ok [if Py.isprintable_latin1 (Byte.to_N b) then Byte.to_N b
        else (256 + Byte.to_N b)%N].
Proof.
  unfold MonospaceASCIIByte.decode. cbn [Py.first mbind result_bind].
  rewrite chr_int_of_byte. cbn [mbind result_bind].
  destruct (Py.isprintable_latin1 (Byte.to_N b)); cbn [negb]; [reflexivity|].
  pose proof (replacement_of_byte b) as Hr.
  destruct (Py.getitem _ _) as [r|e]; cbn [mbind result_bind] in *;
    [|discriminate].
  now rewrite Hr.
Qed.

(** C5. For every byte [b], [MonospaceASCIIByte.decode([b])] is the
    one-character string of code point [b] when that character is printable,
    and of code point [256 + b] otherwise; the substitute lies in 256..511
    and so is the code point of no byte. *)
Theorem MonospaceASCIIByte_decode_printable_or_shifted (b : byte) :
  MonospaceASCIIByte.decode [b]
  = Ok [if Py.isprintable_latin1 (Byte.to_N b) then Byte.to_N b
        else (256 + Byte.to_N b)%N]
  /\ (256 <= 256 + Byte.to_N b <= 511)%N
  /\ (forall b' : byte, Byte.to_N b' <> 256 + Byte.to_N b)%N.
Proof.
  split; [apply MonospaceASCIIByte_decode_cons|].
  pose proof (Byte.to_N_bounded b). split; [lia|].
  intros b'. pose proof (Byte.to_N_bounded b'). lia.
Qed.

Example MonospaceASCIIByte_decode_A :
  MonospaceASCIIByte.decode [x41] = Ok (Py.lit "A").
Proof. reflexivity. Qed.

Example MonospaceASCIIByte_decode_01 :
  MonospaceASCIIByte.decode [x01] = Ok [257%N].
Proof. reflexivity. Qed.

(** C9. On a non-empty buffer [MonospaceASCIIByte.decode] looks at the first
    byte only and returns exactly one character; on the empty buffer it
    raises [IndexError]. *)
Theorem MonospaceASCIIByte_decode_first_byte_only (b : byte) (rest : Py.bytes) :
  MonospaceASCIIByte.decode (b :: rest) = MonospaceASCIIByte.decode [b]
  /\ (exists c, MonospaceASCIIByte.decode (b :: rest) = Ok [c])
  /\ MonospaceASCIIByte.decode [] = Raise IndexError.
Proof.
  rewrite !MonospaceASCIIByte_decode_cons. split; [reflexivity|].
  split; [eauto | reflexivity].
Qed.

Lemma MonospaceASCII_decode_eq (bs : Py.bytes) :
  MonospaceASCII.decode bs
  = Ok (map (fun b => if Py.isprintable_latin1 (Byte.to_N b) then Byte.to_N b
                      else (256 + Byte.to_N b)%N) bs).
Proof.
  unfold MonospaceASCII.decode. rewrite mapM_result_map.
  erewrite mapM_result_total.
  2:{ intros b _. rewrite bytes_of_int_of_byte. cbn [mbind result_bind].
      apply MonospaceASCIIByte_decode_cons. }
  cbn [mbind result_bind]. rewrite join_empty_concat. f_equal.
  induction bs as [|b bs IH]; [reflexivity|]. cbn. now rewrite IH.
Qed.

(** * MajinTenseiIIByte *)

(** C6. [MajinTenseiIIByte.decode([b])] returns the table entry of [b] when
    there is one and raises [KeyError] (the lookup error the specification
    calls UndefinedByteMapping) when there is none; the class defines no
    [encode], and calling it raises [NotImplementedError]. *)
Theorem MajinTenseiIIByte_decode_table_lookup
    (unicode_decimal : N -> option N) (transliter : gmap Z Py.str) (b : byte) :
  MajinTenseiIIByte.decode transliter [b]
  = match transliter !! Py.int_of_byte b with
    | Some t => Ok t
    | None => Raise KeyError
    end
  /\ own_encode unicode_decimal MajinTenseiIIByte = None
  /\ (forall s, call_encode unicode_decimal MajinTenseiIIByte s
                = Raise (NotImplementedError
                           "Encoder for MajinTenseiIIByte not implemented.")).
Proof. repeat split. Qed.

(** * Unimplemented operations *)

Lemma encode_missing_iff (unicode_decimal : N -> option N) (cls : class) :
  own_encode unicode_decimal cls = None <-> cls ∈ decode_only.
Proof.
  unfold decode_only. split.
  - destruct cls; cbn; intros H; try discriminate; set_solver.
  - intros H. destruct cls; cbn; try reflexivity; exfalso;
      repeat (apply elem_of_cons in H as [H|H]; [discriminate|]);
      now apply elem_of_nil in H.
Qed.

Lemma every_class_defines_decode (transliter : gmap Z Py.str) (cls : class) :
  is_Some (own_decode transliter cls).
Proof. destruct cls; cbn; eauto. Qed.

(** C8. A class that does not define [encode] (ASCII, MonospaceASCIIByte,
    MonospaceASCII, MajinTenseiIIByte and Mt2GarbageTextPair; every class
    defines [decode]) inherits the base method: the call raises
    [NotImplementedError] (the specification's UnsupportedOperation), naming
    the class, on every input and returns nothing. *)
Theorem unimplemented_encode_raises
    (unicode_decimal : N -> option N) (cls : class) (s : Py.str) :
  own_encode unicode_decimal cls = None ->
  cls ∈ decode_only
  /\ call_encode unicode_decimal cls s
     = Raise (NotImplementedError
                ("Encoder for " ++ class_name cls ++ " not implemented.")).
Proof.
  intros H. split; [now apply (encode_missing_iff unicode_decimal)|].
  unfold call_encode. rewrite H. reflexivity.
Qed.

Lemma unimplemented_encode_raises_witness :
  own_encode arabic_indic ASCII = None
  /\ ASCII ∈ decode_only
  /\ call_encode arabic_indic ASCII (Py.lit "41")
     = Raise (NotImplementedError "Encoder for ASCII not implemented.").
Proof.
  split; [reflexivity|].
  apply (unimplemented_encode_raises arabic_indic ASCII (Py.lit "41")).
  reflexivity.
Defined.

(** * Hexify.encode *)

Lemma mapM_result_length {A B} (f : A -> result B) l out :
  mapM f l = Ok out -> length out = length l.
Proof.
  revert out. induction l as [|x l IH]; intros out.
  - intros [= <-]. reflexivity.
  - rewrite mapM_result_cons. destruct (f x) as [y|]; [|discriminate].
    cbn [mbind result_bind]. destruct (mapM f l) as [k|]; [|discriminate].
    cbn [mbind result_bind]. intros [= <-]. cbn. f_equal. now apply IH.
Qed.

(** Whenever [Hexify.encode] returns, it returns one byte per character of
    the text, not one per pair. *)
Lemma Hexify_encode_length (unicode_decimal : N -> option N) s out :
  Hexify.encode unicode_decimal s = Ok out -> length out = length s.
Proof.
  unfold Hexify.encode.
  destruct (mapM _ _) as [ints|] eqn:Hints; [|discriminate].
  cbn [mbind result_bind]. intros Hout.
  apply mapM_result_length in Hints, Hout.
  rewrite Hout, Hints. unfold Py.range.
  rewrite length_map, length_seq. lia.
Qed.

(** C2. On the text [41] the windows of [Hexify.encode] are [41] and [1]:
    two bytes come out where the claim has one. *)
Theorem Hexify_encode_41 (unicode_decimal : N -> option N) :
  Hexify.encode unicode_decimal (Py.lit "41") = Ok [x41; x01].
Proof. reflexivity. Qed.

(** Re-encoding the text of one byte gives two bytes, the byte and its low
    digit: [Hexify.encode] is no inverse of [Hexify.decode]. *)
Lemma Hexify_encode_decode_byte (unicode_decimal : N -> option N) (b : byte) :
  (t ← Hexify.decode [b]; Hexify.encode unicode_decimal t)
  = (lo ← Py.byte_of_int (Py.int_of_byte b mod 16); Ok [b; lo]).
Proof. destruct b; vm_compute; reflexivity. Qed.

(** * Mt2GarbageTextPair.decode *)

Lemma step2_lookup {A} (l : list A) (i : nat) :
  Py.step2 l !! i = l !! (2 * i)%nat.
Proof.
  revert l. induction i as [|i IH]; intros [|x [|y r]]; try reflexivity.
  cbn [Py.step2]. replace (2 * S i)%nat with (S (S (2 * i))) by lia.
  cbn [lookup list_lookup]. apply IH.
Qed.

Lemma even_slice_lookup {A} (l : list A) (i : nat) :
  Py.slice_step2 0 l !! i = l !! (2 * i)%nat.
Proof. unfold Py.slice_step2. rewrite drop_0. apply step2_lookup. Qed.

Lemma odd_slice_lookup {A} (l : list A) (i : nat) :
  Py.slice_step2 1 l !! i = l !! (2 * i + 1)%nat.
Proof.
  unfold Py.slice_step2. rewrite step2_lookup, lookup_drop.
  f_equal. lia.
Qed.

Lemma mapM_result_is_ok {A B} (f : A -> result B) l :
  is_ok (mapM f l) = forallb (fun x => is_ok (f x)) l.
Proof.
  induction l as [|x l IH]; [reflexivity|].
  rewrite mapM_result_cons. cbn [forallb]. rewrite <- IH.
  destruct (f x); [|reflexivity]. cbn [mbind result_bind is_ok andb].
  destruct (mapM f l); reflexivity.
Qed.

Lemma forallb_pointwise {A} (p q : A -> bool) l :
  (forall x, p x = q x) -> forallb p l = forallb q l.
Proof.
  intros H. induction l as [|x l IH]; [reflexivity|].
  cbn. now rewrite H, IH.
Qed.

Lemma Mt2GarbageTextPair_decode_eq (transliter : gmap Z Py.str) bs :
  Mt2GarbageTextPair.decode transliter bs
  = (garbage ← MonospaceASCII.decode (Py.slice_step2 1 bs);
     texts ← mapM (fun b => MajinTenseiIIByte.decode transliter [b])
                  (Py.slice_step2 0 bs);
     Ok (garbage ++ concat texts)).
Proof.
  unfold Mt2GarbageTextPair.decode.
  change (cs ← mapM _ (map Py.int_of_byte (Py.slice_step2 1 bs));
          Ok (Py.join [] cs))
    with (MonospaceASCII.decode (Py.slice_step2 1 bs)).
  destruct (MonospaceASCII.decode _) as [garbage|e]; [|reflexivity].
  cbn [mbind result_bind]. rewrite mapM_result_map.
  rewrite (mapM_result_ext _
             (fun b => MajinTenseiIIByte.decode transliter [b])).
  2:{ intros b _. now rewrite bytes_of_int_of_byte. }
  destruct (mapM _ _) as [texts|e]; [|reflexivity].
  cbn [mbind result_bind]. now rewrite join_empty_concat.
Qed.

(** C1, as the code has it. [Mt2GarbageTextPair.decode] partitions the
    buffer by index parity, in order; the garbage string is
    [MonospaceASCII.decode] of the odd-index bytes, the text string is the
    concatenation of [MajinTenseiIIByte.decode([b])] over the even-index
    bytes [b] taken one at a time, and the result is garbage followed by
    text. In particular on [[t0, g0, t1, g1]] it is
    [MonospaceASCII.decode([g0, g1])] followed by the table entries of [t0]
    and of [t1]. The call returns exactly when every even-index byte has a
    table entry, whatever the length of the buffer. *)
Theorem Mt2GarbageTextPair_decode_garbage_then_text
    (transliter : gmap Z Py.str) (bs : Py.bytes) :
  (forall i, Py.slice_step2 0 bs !! i = bs !! (2 * i)%nat)
  /\ (forall i, Py.slice_step2 1 bs !! i = bs !! (2 * i + 1)%nat)
  /\ Mt2GarbageTextPair.decode transliter bs
     = (garbage ← MonospaceASCII.decode (Py.slice_step2 1 bs);
        texts ← mapM (fun b => MajinTenseiIIByte.decode transliter [b])
                     (Py.slice_step2 0 bs);
        Ok (garbage ++ concat texts))
  /\ (forall t0 g0 t1 g1,
        Mt2GarbageTextPair.decode transliter [t0; g0; t1; g1]
        = (garbage ← MonospaceASCII.decode [g0; g1];
           text0 ← MajinTenseiIIByte.decode transliter [t0];
           text1 ← MajinTenseiIIByte.decode transliter [t1];
           Ok (garbage ++ text0 ++ text1)))
  /\ is_ok (Mt2GarbageTextPair.decode transliter bs)
     = forallb (fun b => bool_decide (is_Some (transliter !! Py.int_of_byte b)))
               (Py.slice_step2 0 bs).
Proof.
  split; [apply even_slice_lookup|]. split; [apply odd_slice_lookup|].
  split; [apply Mt2GarbageTextPair_decode_eq|]. split.
  - intros t0 g0 t1 g1. rewrite Mt2GarbageTextPair_decode_eq.
    change (Py.slice_step2 1 [t0; g0; t1; g1]) with [g0; g1].
    change (Py.slice_step2 0 [t0; g0; t1; g1]) with [t0; t1].
    destruct (MonospaceASCII.decode _) as [garbage|e]; [|reflexivity].
    cbn [mbind result_bind]. rewrite !mapM_result_cons.
    destruct (MajinTenseiIIByte.decode transliter [t0]); [|reflexivity].
    cbn [mbind result_bind].
    destruct (MajinTenseiIIByte.decode transliter [t1]); [|reflexivity].
    cbn. now rewrite app_nil_r.
  - rewrite Mt2GarbageTextPair_decode_eq, MonospaceASCII_decode_eq.
    cbn [mbind result_bind].
    transitivity (is_ok (mapM (fun b => MajinTenseiIIByte.decode transliter [b])
                              (Py.slice_step2 0 bs))).
    { destruct (mapM _ _); reflexivity. }
    rewrite mapM_result_is_ok. apply forallb_pointwise. intros b.
    unfold MajinTenseiIIByte.decode. cbn [Py.first mbind result_bind].
    destruct (transliter !! Py.int_of_byte b) eqn:E; cbn [is_ok].
    + symmetry. apply bool_decide_eq_true. eauto.
    + symmetry. apply bool_decide_eq_false. intros [? ?]. discriminate.
Qed.

(** C1, the equation as the claim writes it, fails: on
    [[0x41, 0x20, 0x41, 0x20]] with a table that maps 0x41 to one character,
    the code returns two spaces and two copies of that character, while
    [MajinTenseiIIByte.decode([0x41, 0x41])] is one copy. *)
Lemma Mt2GarbageTextPair_decode_not_table_of_evens :
  Mt2GarbageTextPair.decode sample_transliter [x41; x20; x41; x20]
  = Ok [32%N; 32%N; 12354%N; 12354%N]
  /\ (garbage ← MonospaceASCII.decode [x20; x20];
      text ← MajinTenseiIIByte.decode sample_transliter [x41; x41];
      Ok (garbage ++ text)) = Ok [32%N; 32%N; 12354%N]
  /\ Mt2GarbageTextPair.decode sample_transliter [x41; x20; x41; x20]
     <> (garbage ← MonospaceASCII.decode [x20; x20];
         text ← MajinTenseiIIByte.decode sample_transliter [x41; x41];
         Ok (garbage ++ text)).
Proof.
  split; [vm_compute; reflexivity|]. split; [vm_compute; reflexivity|].
  vm_compute. discriminate.
Qed.

(** * HexifySpaces: decode, then encode *)

Lemma split_on_go_app sep (tok rest cur : Py.str) :
  Forall (fun c => c <> sep) tok ->
  split_on_go sep (tok ++ rest) cur = split_on_go sep rest (rev tok ++ cur).
Proof.
  intros H. revert cur. induction H as [|c tok Hc _ IH]; intros cur.
  - reflexivity.
  - cbn [app split_on_go]. destruct (N.eqb_spec c sep); [contradiction|].
    rewrite IH. cbn [rev]. now rewrite <- app_assoc.
Qed.

Lemma split_on_go_join sep (t : Py.str) (ts : list Py.str) (cur : Py.str) :
  Forall (Forall (fun c => c <> sep)) (t :: ts) ->
  split_on_go sep (Py.join [sep] (t :: ts)) cur = (rev cur ++ t) :: ts.
Proof.
  revert t cur. induction ts as [|t' ts IH]; intros t cur H.
  - cbn [Py.join]. rewrite <- (app_nil_r t) at 1.
    rewrite split_on_go_app by now inversion H.
    cbn [split_on_go]. now rewrite rev_app_distr, rev_involutive.
  - change (Py.join [sep] (t :: t' :: ts))
      with (t ++ [sep] ++ Py.join [sep] (t' :: ts)).
    inversion H as [|? ? Ht Hts]; subst.
    rewrite split_on_go_app by assumption.
    cbn [app split_on_go]. rewrite N.eqb_refl.
    rewrite IH by assumption.
    now rewrite rev_app_distr, rev_involutive.
Qed.

Lemma split_go_app (tok rest cur : Py.str) :
  Forall (fun c => Py.isspace c = false) tok ->
  Py.split_go (tok ++ rest) cur = Py.split_go rest (rev tok ++ cur).
Proof.
  intros H. revert cur. induction H as [|c tok Hc _ IH]; intros cur.
  - reflexivity.
  - cbn [app Py.split_go]. rewrite Hc, IH. cbn [rev].
    now rewrite <- app_assoc.
Qed.

Lemma split_go_token (t rest : Py.str) :
  token t ->
  Py.split_go (t ++ rest) []
  = match rest with
    | [] => [t]
    | c :: r => if Py.isspace c then t :: Py.split_go r []
                else Py.split_go rest (rev t)
    end.
Proof.
  intros [Hne Hsp]. rewrite split_go_app, app_nil_r by assumption.
  assert (Hrev : rev (rev t) = t) by apply rev_involutive.
  destruct rest as [|c r].
  - cbn [Py.split_go]. destruct (rev t) eqn:E; [|now rewrite Hrev].
    cbn in Hrev. congruence.
  - cbn [Py.split_go]. destruct (Py.isspace c); [|reflexivity].
    destruct (rev t) eqn:E; [|now rewrite Hrev].
    cbn in Hrev. congruence.
Qed.

Lemma split_go_spaces (w s : Py.str) :
  Forall (fun c => Py.isspace c = true) w ->
  Py.split_go (w ++ s) [] = Py.split_go s [].
Proof.
  induction 1 as [|c w Hc _ IH]; [reflexivity|].
  cbn [app Py.split_go]. now rewrite Hc.
Qed.

Lemma split_token_run (t w s : Py.str) :
  token t -> w <> [] -> Forall (fun c => Py.isspace c = true) w ->
  Py.split (t ++ w ++ s) = t :: Py.split s.
Proof.
  intros Ht Hne Hw. unfold Py.split. rewrite split_go_token by assumption.
  destruct Hw as [|c w Hc Hw]; [contradiction|].
  cbn [app]. rewrite Hc. f_equal. now apply split_go_spaces.
Qed.

Lemma split_join_tokens (toks : list Py.str) :
  Forall token toks -> Py.split (Py.join (Py.lit " ") toks) = toks.
Proof.
  unfold Py.split. induction 1 as [|t ts Ht Hts IH]; [reflexivity|].
  destruct ts as [|t' ts].
  - cbn [Py.join]. rewrite <- (app_nil_r t) at 1.
    now rewrite split_go_token.
  - change (Py.join (Py.lit " ") (t :: t' :: ts))
      with (t ++ 32%N :: Py.join (Py.lit " ") (t' :: ts)).
    rewrite split_go_token by assumption.
    change (Py.isspace 32) with true. cbv iota. now rewrite IH.
Qed.

Lemma hex_pair_token (b : byte) : token (hex_pair b).
Proof. split; [discriminate|]. destruct b; repeat constructor. Qed.

Lemma hex_pair_no_space (b : byte) : Forall (fun c => c <> 32%N) (hex_pair b).
Proof. destruct b; repeat constructor; discriminate. Qed.

Lemma int16_hex_pair (unicode_decimal : N -> option N) (b : byte) :
  Py.int16 unicode_decimal (hex_pair b) = Ok (Py.int_of_byte b).
Proof. destruct b; vm_compute; reflexivity. Qed.

Lemma byte_of_int_of_byte (b : byte) :
  Py.byte_of_int (Py.int_of_byte b) = Ok b.
Proof. destruct b; reflexivity. Qed.

Lemma HexifySpaces_decode_eq (bs : Py.bytes) :
  HexifySpaces.decode bs = Ok (Py.join (Py.lit " ") (map hex_pair bs)).
Proof.
  unfold HexifySpaces.decode. rewrite mapM_result_map.
  rewrite (mapM_result_total _ hex_pair); [reflexivity|].
  intros b _. rewrite bytes_of_int_of_byte. cbn [mbind result_bind].
  rewrite Hexify_decode_eq. reflexivity.
Qed.

Lemma HexifySpaces_encode_tokens (unicode_decimal : N -> option N) bs :
  HexifySpaces.encode unicode_decimal (Py.join (Py.lit " ") (map hex_pair bs))
  = Ok bs.
Proof.
  unfold HexifySpaces.encode. rewrite split_join_tokens.
  2:{ apply Forall_forall. intros t Ht. apply list_elem_of_In in Ht.
      apply in_map_iff in Ht as [b [<- _]]. apply hex_pair_token. }
  rewrite mapM_result_map.
  rewrite (mapM_result_total _ Py.int_of_byte)
    by (intros b _; apply int16_hex_pair).
  cbn [mbind result_bind]. unfold Py.bytes_of_ints.
  rewrite mapM_result_map.
  rewrite (mapM_result_total _ (fun b => b))
    by (intros b _; apply byte_of_int_of_byte).
  now rewrite map_id.
Qed.

(** C3, as the code has it. For every byte sequence [bs],
    [HexifySpaces.decode(bs)] is the two-character uppercase hex groups of
    the bytes joined by single spaces, and [HexifySpaces.encode] of that
    text is [bs] again. The whitespace split that [encode] uses finds
    exactly [len(bs)] tokens, each the group of the corresponding byte and
    each parsed back to that byte. Splitting on the single-space separator
    finds the same tokens when [bs] is not empty; for the empty sequence the
    text is empty and that split yields one empty piece. *)
Theorem HexifySpaces_decode_tokens_roundtrip
    (unicode_decimal : N -> option N) (bs : Py.bytes) :
  exists out,
    HexifySpaces.decode bs = Ok out
    /\ out = Py.join (Py.lit " ") (map hex_pair bs)
    /\ split_on 32 out = match bs with
                         | [] => [[]]
                         | _ => map hex_pair bs
                         end
    /\ Py.split out = map hex_pair bs
    /\ length (Py.split out) = length bs
    /\ Forall (fun b => length (hex_pair b) = 2%nat
                        /\ Py.int16 unicode_decimal (hex_pair b)
                           = Ok (Py.int_of_byte b)) bs
    /\ HexifySpaces.encode unicode_decimal out = Ok bs.
Proof.
  assert (Htok : Forall token (map hex_pair bs)).
  { apply Forall_forall. intros t Ht. apply list_elem_of_In in Ht.
    apply in_map_iff in Ht as [b [<- _]]. apply hex_pair_token. }
  eexists. split; [apply HexifySpaces_decode_eq|].
  split; [reflexivity|]. split.
  { destruct bs as [|b bs]; [reflexivity|]. unfold split_on.
    cbn [map]. change (Py.lit " ") with [32%N].
    rewrite split_on_go_join; [reflexivity|].
    apply Forall_forall. intros t Ht. apply list_elem_of_In in Ht.
    change (In t (map hex_pair (b :: bs))) in Ht.
    apply in_map_iff in Ht as [b' [<- _]]. apply hex_pair_no_space. }
  split; [now apply split_join_tokens|].
  split; [now rewrite split_join_tokens, length_map|].
  split; [|apply HexifySpaces_encode_tokens].
  apply Forall_forall. intros b _. split; [reflexivity|apply int16_hex_pair].
Qed.

(** C3, as the claim writes it, fails on the empty buffer: the decoded text
    is empty, and splitting the empty text on single spaces gives one
    (empty) piece, not [len(bs) = 0] of them. *)
Lemma HexifySpaces_decode_empty_splits_in_one :
  HexifySpaces.decode [] = Ok []
  /\ split_on 32 [] = [[]]
  /\ ~ (forall bs out, HexifySpaces.decode bs = Ok out ->
                       length (split_on 32 out) = length bs).
Proof.
  split; [reflexivity|]. split; [reflexivity|].
  intros H. specialize (H [] [] eq_refl). discriminate H.
Qed.

(** * The integer parser and the literal grammar *)

Lemma digit_value_char c d :
  Py.digit_value c = Some d ->
  (48 <= c <= 57 \/ 65 <= c <= 70 \/ 97 <= c <= 102)%N /\ 0 <= d < 16.
Proof.
  unfold Py.digit_value. intros H. split_tests; cbn in H;
    try discriminate; injection H as <-; lia.
Qed.

Lemma digit_not_underscore c d : Py.digit_value c = Some d -> (c =? 95)%N = false.
Proof. intros H%digit_value_char. apply N.eqb_neq. lia. Qed.

Lemma digit_not_space c d : Py.digit_value c = Some d -> Py.ascii_space c = false.
Proof.
  intros H%digit_value_char. unfold Py.ascii_space.
  split_tests; cbn; try reflexivity; lia.
Qed.

Lemma space_char c :
  Py.ascii_space c = true -> (9 <= c <= 13 \/ c = 32)%N.
Proof. unfold Py.ascii_space. intros H. split_tests; cbn in H; try discriminate; lia. Qed.

Lemma space_stop c r : Py.ascii_space c = true -> stop (c :: r).
Proof.
  intros H%space_char. split; [lia|].
  unfold Py.digit_value. split_tests; cbn; try reflexivity; lia.
Qed.

Lemma spaces_stop ws :
  Forall (fun x => Py.ascii_space x = true) ws -> stop ws.
Proof. destruct 1; [exact I|]. now apply space_stop. Qed.

Lemma skip_spaces_all ws :
  Forall (fun x => Py.ascii_space x = true) ws -> Py.skip_spaces ws = [].
Proof. induction 1 as [|c ws Hc _ IH]; [reflexivity|]. cbn. now rewrite Hc. Qed.

Lemma skip_spaces_app ws a :
  Forall (fun x => Py.ascii_space x = true) ws ->
  Py.skip_spaces (ws ++ a) = Py.skip_spaces a.
Proof. induction 1 as [|c ws Hc _ IH]; [reflexivity|]. cbn. now rewrite Hc. Qed.

Lemma skip_spaces_split a :
  exists ws, a = ws ++ Py.skip_spaces a
             /\ Forall (fun x => Py.ascii_space x = true) ws.
Proof.
  induction a as [|c a [ws [Ha Hws]]]; [now exists []|].
  cbn [Py.skip_spaces]. destruct (Py.ascii_space c) eqn:Hc.
  - exists (c :: ws). split; [cbn; now f_equal | now constructor].
  - now exists [].
Qed.

(** The digit loop against the grammar. *)
Lemma scan_complete acc t v rest :
  digits_tail acc t v -> stop rest ->
  forall n, exists n',
    Py.scan (t ++ rest) false acc n = Some (v, n', rest)
    /\ (n <= n')%nat /\ (t <> [] -> (n < n')%nat).
Proof.
  intros Ht Hrest. induction Ht as [acc|acc c d t v Hc _ IH|acc c d t v Hc _ IH];
    intros n.
  - exists n. split; [|split; [lia|congruence]].
    destruct rest as [|c r]; [reflexivity|]. destruct Hrest as [Hne Hd].
    cbn [app Py.scan]. apply N.eqb_neq in Hne. now rewrite Hne, Hd.
  - destruct (IH (S n)) as [n' [Hs [Hle _]]]. exists n'.
    split; [|split; [lia|intros _; lia]].
    cbn [app Py.scan]. now rewrite (digit_not_underscore c d Hc), Hc.
  - destruct (IH (S n)) as [n' [Hs [Hle _]]]. exists n'.
    split; [|split; [lia|intros _; lia]].
    cbn [app Py.scan]. rewrite N.eqb_refl.
    now rewrite (digit_not_underscore c d Hc), Hc.
Qed.

Lemma scan_sound a :
  forall p acc n v n' rest,
    Py.scan a p acc n = Some (v, n', rest) ->
    exists t,
      (if p then 95%N :: a else a) = t ++ rest
      /\ digits_tail acc t v /\ stop rest
      /\ (n <= n')%nat /\ (t = [] -> n' = n).
Proof.
  induction a as [|c r IH]; intros p acc n v n' rest H.
  - cbn in H. destruct p; [discriminate|]. injection H as <- <- <-.
    exists []. repeat split; [constructor | lia].
  - cbn [Py.scan] in H. destruct (N.eqb_spec c 95) as [->|Hne].
    + destruct p; [discriminate|].
      apply IH in H as [t [Ha [Ht [Hst [Hle Hnil]]]]].
      exists t. repeat split; assumption.
    + destruct (Py.digit_value c) as [d|] eqn:Hd.
      * apply IH in H as [t [Ha [Ht [Hst [Hle _]]]]]. cbn iota in Ha.
        destruct p.
        -- exists (95%N :: c :: t). rewrite Ha.
           repeat split; [econstructor 3; eauto | assumption | lia | discriminate].
        -- exists (c :: t). rewrite Ha.
           repeat split; [econstructor 2; eauto | assumption | lia | discriminate].
      * destruct p; [discriminate|]. injection H as <- <- <-.
        exists []. repeat split; [constructor | assumption | assumption | lia].
Qed.

Lemma tail_head_not_x acc t v ws2 x r :
  digits_tail acc t v ->
  Forall (fun y => Py.ascii_space y = true) ws2 ->
  t ++ ws2 = x :: r -> ((x =? 120) || (x =? 88))%N = false.
Proof.
  intros Ht Hws H. destruct Ht as [acc|acc c d t v Hc _|acc c d t v Hc _].
  - cbn in H. subst ws2. inversion Hws as [|? ? Hx%space_char]; subst.
    split_tests; cbn; try reflexivity; lia.
  - injection H as <- _. apply digit_value_char in Hc as [Hc _].
    split_tests; cbn; try reflexivity; lia.
  - injection H as <- _. reflexivity.
Qed.

Lemma digits_complete c d t v ws2 :
  Py.digit_value c = Some d -> digits_tail d t v ->
  Forall (fun y => Py.ascii_space y = true) ws2 ->
  Py.digits (c :: t ++ ws2) = Ok (v, ws2).
Proof.
  intros Hc Ht Hws. unfold Py.digits.
  rewrite (digit_not_underscore c d Hc). cbn [Py.scan].
  rewrite (digit_not_underscore c d Hc), Hc.
  replace (16 * 0 + d) with d by lia.
  destruct (scan_complete d t v ws2 Ht (spaces_stop ws2 Hws) 1%nat)
    as [n' [-> [Hle _]]].
  destruct n'; [lia|]. reflexivity.
Qed.

Lemma strip_prefix_none c d t v ws2 :
  Py.digit_value c = Some d -> digits_tail d t v ->
  Forall (fun y => Py.ascii_space y = true) ws2 ->
  Py.strip_prefix (c :: t ++ ws2) = c :: t ++ ws2.
Proof.
  intros Hc Ht Hws. unfold Py.strip_prefix.
  destruct (t ++ ws2) as [|x r] eqn:E; [reflexivity|].
  rewrite (tail_head_not_x _ _ _ _ _ _ Ht Hws E).
  now rewrite andb_false_r.
Qed.

Lemma strip_prefix_complete prefix c d t v ws2 :
  prefix ∈ prefixes ->
  Py.digit_value c = Some d -> digits_tail d t v ->
  Forall (fun y => Py.ascii_space y = true) ws2 ->
  Py.strip_prefix (prefix ++ c :: t ++ ws2) = c :: t ++ ws2.
Proof.
  intros Hp Hc Ht Hws. unfold prefixes in Hp.
  pose proof (digit_not_underscore c d Hc) as Hu.
  repeat (apply elem_of_cons in Hp as [->|Hp]);
    [ now apply (strip_prefix_none c d t v) | | | | | now apply elem_of_nil in Hp ];
    cbn; try rewrite Hu; reflexivity.
Qed.

Lemma literal_head_not_space sg prefix c d r :
  prefix ∈ prefixes -> Py.digit_value c = Some d ->
  Py.skip_spaces (sign_text sg ++ prefix ++ c :: r)
  = sign_text sg ++ prefix ++ c :: r.
Proof.
  intros Hp Hc. pose proof (digit_not_space c d Hc) as Hs. unfold prefixes in Hp.
  destruct sg; [|reflexivity|reflexivity].
  repeat (apply elem_of_cons in Hp as [->|Hp]); try reflexivity.
  - cbn. now rewrite Hs.
  - now apply elem_of_nil in Hp.
Qed.

Lemma strip_sign_complete sg prefix c d r :
  prefix ∈ prefixes -> Py.digit_value c = Some d ->
  Py.strip_sign (sign_text sg ++ prefix ++ c :: r)
  = (match sg with Minus => true | _ => false end, prefix ++ c :: r).
Proof.
  intros Hp Hc. apply digit_value_char in Hc as [Hc _]. unfold prefixes in Hp.
  destruct sg; [|reflexivity|reflexivity].
  repeat (apply elem_of_cons in Hp as [->|Hp]); try reflexivity.
  - cbn. split_tests; try reflexivity; lia.
  - now apply elem_of_nil in Hp.
Qed.

Lemma int16_complete ud s v :
  hex_literal (map (Py.to_ascii ud) s) v -> Py.int16 ud s = Ok v.
Proof.
  intros H. unfold Py.int16.
  inversion H as [ws1 sg prefix c d t ws2 v' Hws1 Hws2 Hp Hc Ht Heq Hv].
  rewrite skip_spaces_app by assumption.
  rewrite (literal_head_not_space sg prefix c d) by assumption.
  rewrite (strip_sign_complete sg prefix c d) by assumption.
  rewrite (strip_prefix_complete prefix c d t v') by assumption.
  rewrite (digits_complete c d t v') by assumption.
  cbn [mbind result_bind fst snd]. rewrite skip_spaces_all by assumption.
  destruct sg; reflexivity.
Qed.

Lemma strip_sign_sound a :
  exists sg, a = sign_text sg ++ (Py.strip_sign a).2
             /\ (Py.strip_sign a).1 = match sg with Minus => true | _ => false end.
Proof.
  destruct a as [|c r]; [now exists NoSign|]. unfold Py.strip_sign.
  destruct (N.eqb_spec c 43) as [->|_]; [now exists Plus|].
  destruct (N.eqb_spec c 45) as [->|_]; [now exists Minus|].
  now exists NoSign.
Qed.

Lemma strip_prefix_sound a :
  exists prefix, prefix ∈ prefixes /\ a = prefix ++ Py.strip_prefix a.
Proof.
  assert (Hnone : exists prefix, prefix ∈ prefixes /\ a = prefix ++ a).
  { exists []. split; [left|reflexivity]. }
  assert (Hmem : forall p, In p prefixes -> p ∈ prefixes).
  { intros p. apply list_elem_of_In. }
  destruct a as [|c [|x r]]; try exact Hnone. unfold Py.strip_prefix.
  destruct (N.eqb_spec c 48) as [->|_]; [|exact Hnone].
  destruct (N.eqb_spec x 120) as [->|_]; cbn [andb orb].
  - destruct r as [|u r'].
    { exists [48; 120]%N. split; [apply Hmem; cbn; tauto|reflexivity]. }
    destruct (N.eqb_spec u 95) as [->|_].
    + exists [48; 120; 95]%N. split; [apply Hmem; cbn; tauto|reflexivity].
    + exists [48; 120]%N. split; [apply Hmem; cbn; tauto|reflexivity].
  - destruct (N.eqb_spec x 88) as [->|_]; [|exact Hnone].
    destruct r as [|u r'].
    { exists [48; 88]%N. split; [apply Hmem; cbn; tauto|reflexivity]. }
    destruct (N.eqb_spec u 95) as [->|_].
    + exists [48; 88; 95]%N. split; [apply Hmem; cbn; tauto|reflexivity].
    + exists [48; 88]%N. split; [apply Hmem; cbn; tauto|reflexivity].
Qed.

Lemma digits_sound a v rest :
  Py.digits a = Ok (v, rest) ->
  exists c d t, a = c :: t ++ rest /\ Py.digit_value c = Some d
                /\ digits_tail d t v /\ stop rest.
Proof.
  unfold Py.digits. destruct a as [|c r]; [discriminate|].
  destruct (N.eqb_spec c 95) as [|Hne]; [discriminate|].
  destruct (Py.scan (c :: r) false 0 0) as [[[v' n] rest']|] eqn:Hs;
    [|discriminate].
  destruct n as [|n]; [discriminate|]. cbn. intros [= -> ->].
  apply scan_sound in Hs as [t [Ha [Ht [Hst [_ Hnil]]]]].
  inversion Ht as [acc|acc c' d t' v'' Hc Ht'|acc c' d t' v'' Hc Ht']; subst.
  - specialize (Hnil eq_refl). discriminate.
  - injection Ha as <- ->. exists c, d, t'.
    replace (16 * 0 + d) with d in Ht' by lia.
    repeat split; assumption.
  - injection Ha as -> _. contradiction.
Qed.

Lemma skip_spaces_nil a :
  Py.skip_spaces a = [] -> Forall (fun x => Py.ascii_space x = true) a.
Proof.
  induction a as [|c a IH]; [constructor|]. cbn.
  destruct (Py.ascii_space c) eqn:Hc; [|discriminate].
  intros H. constructor; auto.
Qed.

Lemma int16_sound ud s v :
  Py.int16 ud s = Ok v -> hex_literal (map (Py.to_ascii ud) s) v.
Proof.
  unfold Py.int16.
  destruct (skip_spaces_split (map (Py.to_ascii ud) s)) as [ws1 [Hs Hws1]].
  rewrite Hs at 2. clear Hs.
  destruct (strip_sign_sound (Py.skip_spaces (map (Py.to_ascii ud) s)))
    as [sg [Hsg Hneg]].
  rewrite Hsg at 2. clear Hsg.
  destruct (Py.strip_sign _) as [neg a2]. cbn [fst snd] in *.
  destruct (strip_prefix_sound a2) as [prefix [Hp Hpre]].
  rewrite Hpre at 2. clear Hpre.
  destruct (Py.digits (Py.strip_prefix a2)) as [[v' rest]|] eqn:Hd;
    [|discriminate].
  apply digits_sound in Hd as [c [d [t [-> [Hc [Ht _]]]]]].
  cbn [mbind result_bind fst snd].
  destruct (Py.skip_spaces rest) eqn:Hr; [|discriminate].
  apply skip_spaces_nil in Hr. intros [= <-].
  replace (if neg then - v' else v') with (signed sg v')
    by (subst neg; now destruct sg).
  now apply (hex_literal_intro ws1 sg prefix c d t rest v').
Qed.

Lemma int16_raises_ValueError ud s e :
  Py.int16 ud s = Raise e -> e = ValueError.
Proof.
  unfold Py.int16. destruct (Py.strip_sign _) as [neg a].
  assert (Hd : forall a e, Py.digits a = Raise e -> e = ValueError).
  { intros a' e'. unfold Py.digits. destruct a' as [|c r]; [congruence|].
    destruct (c =? 95)%N; [congruence|].
    destruct (Py.scan _ _ _ _) as [[[? n] ?]|]; [|congruence].
    destruct (n =? 0)%nat; [congruence|discriminate]. }
  destruct (Py.digits _) as [p|e'] eqn:E.
  - cbn [mbind result_bind]. destruct (Py.skip_spaces _); [discriminate|congruence].
  - cbn [mbind result_bind]. intros [= <-]. eapply Hd, E.
Qed.

(** * HexifySpaces.encode *)

Lemma byte_literal_int16 ud tok :
  byte_literal ud tok <-> exists v, Py.int16 ud tok = Ok v /\ 0 <= v <= 255.
Proof.
  split; intros [v [H Hv]]; exists v; split; try assumption.
  - now apply int16_complete.
  - now apply int16_sound.
Qed.

Lemma byte_of_int_in_range i :
  0 <= i <= 255 -> exists b, Py.byte_of_int i = Ok b /\ Py.int_of_byte b = i.
Proof.
  intros Hi. unfold Py.byte_of_int.
  destruct (Z.leb_spec 0 i); [|lia]. destruct (Z.ltb_spec i 256); [|lia].
  cbn [andb]. destruct (Byte.of_N (Z.to_N i)) as [b|] eqn:E.
  - exists b. split; [reflexivity|]. apply Byte.to_of_N in E.
    unfold Py.int_of_byte. lia.
  - apply Byte.of_N_None_iff in E. lia.
Qed.

Lemma byte_of_int_ok i b : Py.byte_of_int i = Ok b -> 0 <= i <= 255.
Proof.
  unfold Py.byte_of_int.
  destruct (Z.leb_spec 0 i); [|discriminate].
  destruct (Z.ltb_spec i 256); [|discriminate]. lia.
Qed.

Lemma byte_of_int_raises i e : Py.byte_of_int i = Raise e -> e = ValueError.
Proof.
  unfold Py.byte_of_int. destruct (_ && _); [|congruence].
  destruct (Byte.of_N _); [discriminate|congruence].
Qed.

Lemma encode_tokens_cons ud tok toks :
  encode_tokens ud (tok :: toks)
  = match Py.int16 ud tok with
    | Ok v =>
        match mapM (Py.int16 ud) toks with
        | Ok vs =>
            match Py.byte_of_int v with
            | Ok b => (fun out => b :: out) <$> Py.bytes_of_ints vs
            | Raise e => Raise e
            end
        | Raise e => Raise e
        end
    | Raise e => Raise e
    end.
Proof.
  rewrite mapM_result_cons. destruct (Py.int16 ud tok) as [v|]; [|reflexivity].
  cbn [mbind result_bind]. destruct (mapM _ toks) as [vs|]; [|reflexivity].
  cbn [mbind result_bind]. unfold Py.bytes_of_ints.
  rewrite mapM_result_cons. destruct (Py.byte_of_int v); [|reflexivity].
  cbn [mbind result_bind]. destruct (mapM _ vs); reflexivity.
Qed.

Lemma encode_tokens_raises ud toks e :
  encode_tokens ud toks = Raise e -> e = ValueError.
Proof.
  revert e. induction toks as [|tok toks IH]; intros e; [discriminate|].
  rewrite encode_tokens_cons.
  destruct (Py.int16 ud tok) as [v|e'] eqn:Ev.
  2:{ intros [= <-]. eapply int16_raises_ValueError, Ev. }
  destruct (mapM _ toks) as [vs|e'] eqn:Evs.
  2:{ intros [= <-]. now apply IH. }
  destruct (Py.byte_of_int v) as [b|e'] eqn:Eb.
  2:{ intros [= <-]. eapply byte_of_int_raises, Eb. }
  cbn [mbind result_bind] in IH.
  destruct (Py.bytes_of_ints vs) as [out|e'] eqn:Eout; [discriminate|].
  cbn. intros [= <-]. now apply IH.
Qed.

Lemma encode_tokens_ok ud toks out :
  encode_tokens ud toks = Ok out ->
  Forall (byte_literal ud) toks /\ length out = length toks.
Proof.
  revert out. induction toks as [|tok toks IH]; intros out.
  - intros [= <-]. split; [constructor|reflexivity].
  - rewrite encode_tokens_cons.
    destruct (Py.int16 ud tok) as [v|] eqn:Ev; [|discriminate].
    destruct (mapM _ toks) as [vs|] eqn:Evs; [|discriminate].
    destruct (Py.byte_of_int v) as [b|] eqn:Eb; [|discriminate].
    cbn [mbind result_bind] in IH.
    destruct (Py.bytes_of_ints vs) as [out'|] eqn:Eout; [|discriminate].
    cbn. intros [= <-]. destruct (IH out' eq_refl) as [Hall Hlen].
    split; [|cbn; now f_equal]. constructor; [|assumption].
    apply byte_literal_int16. exists v. split; [assumption|].
    eapply byte_of_int_ok, Eb.
Qed.

Lemma encode_tokens_valid ud toks :
  Forall (byte_literal ud) toks -> exists out, encode_tokens ud toks = Ok out.
Proof.
  induction 1 as [|tok toks Htok _ [out IH]]; [now exists []|].
  rewrite encode_tokens_cons.
  apply byte_literal_int16 in Htok as [v [-> Hv]].
  destruct (mapM _ toks) as [vs|]; [|discriminate].
  cbn [mbind result_bind] in IH. rewrite IH.
  destruct (byte_of_int_in_range v Hv) as [b [-> _]].
  now exists (b :: out).
Qed.

Lemma byte_literal_dec ud tok :
  byte_literal ud tok \/ ~ byte_literal ud tok.
Proof.
  destruct (Py.int16 ud tok) as [v|e] eqn:E.
  - destruct (Z.le_gt_cases 0 v); [destruct (Z.le_gt_cases v 255)|].
    + left. apply byte_literal_int16. eauto.
    + right. intros [v' [Hv' ?]]%byte_literal_int16.
      assert (v' = v) by congruence. lia.
    + right. intros [v' [Hv' ?]]%byte_literal_int16.
      assert (v' = v) by congruence. lia.
  - right. intros [v' [Hv' ?]]%byte_literal_int16. congruence.
Qed.

Lemma all_valid_or_some_invalid ud toks :
  Forall (byte_literal ud) toks
  \/ Exists (fun tok => ~ byte_literal ud tok) toks.
Proof.
  induction toks as [|tok toks [IH|IH]].
  - left. constructor.
  - destruct (byte_literal_dec ud tok) as [H|H].
    + left. now constructor.
    + right. now constructor.
  - right. now constructor 2.
Qed.

(** * HexifySpaces.encode: long tokens and runs of whitespace *)

Lemma digit_to_ascii ud c d :
  Py.digit_value c = Some d -> Py.to_ascii ud c = c.
Proof.
  intros [Hc _]%digit_value_char. unfold Py.to_ascii.
  destruct (N.ltb_spec c 127); [reflexivity|lia].
Qed.

Lemma digit_not_isspace c d :
  Py.digit_value c = Some d -> Py.isspace c = false.
Proof.
  intros [Hc _]%digit_value_char. unfold Py.isspace.
  split_tests; cbn; try reflexivity; lia.
Qed.

Lemma digits_tail_all_digits acc (t : list N) :
  Forall (fun c => is_Some (Py.digit_value c)) t ->
  digits_tail acc t
    (fold_left (fun a c => 16 * a + default 0 (Py.digit_value c)) t acc).
Proof.
  intros H. revert acc. induction H as [|c t [d Hc] _ IH]; intros acc.
  - constructor.
  - cbn [fold_left]. rewrite Hc. cbn [default]. econstructor 2; eauto.
Qed.

Lemma int16_hex_digits ud (ds : Py.str) :
  ds <> [] -> Forall (fun c => is_Some (Py.digit_value c)) ds ->
  Py.int16 ud ds = Ok (hex_value ds).
Proof.
  intros Hne Hds. apply int16_complete.
  assert (Hid : map (Py.to_ascii ud) ds = ds).
  { clear Hne. induction Hds as [|c t [d Hc] _ IH]; [reflexivity|].
    cbn. now rewrite (digit_to_ascii ud c d Hc), IH. }
  rewrite Hid. destruct Hds as [|c t [d Hc] Ht]; [contradiction|].
  pose proof (hex_literal_intro [] NoSign [] c d t []
                (hex_value (c :: t))) as H.
  cbn [app sign_text signed] in H. rewrite app_nil_r in H.
  apply H; [constructor | constructor | left | assumption |].
  unfold hex_value. cbn [fold_left]. rewrite Hc. cbn [default].
  replace (16 * 0 + d) with d by lia. now apply digits_tail_all_digits.
Qed.

Lemma hex_digits_token (ds : Py.str) :
  ds <> [] -> Forall (fun c => is_Some (Py.digit_value c)) ds -> token ds.
Proof.
  intros Hne Hds. split; [assumption|].
  eapply Forall_impl; [exact Hds|].
  intros c [d Hc]. eapply digit_not_isspace, Hc.
Qed.

(** C10. [HexifySpaces.encode] takes a token of hexadecimal digits of any
    length whose value is that of a byte, and separates tokens at runs of
    whitespace of any length: such a token alone encodes to that byte; a
    run of whitespace in front of a text changes nothing; and such a token,
    a non-empty run of whitespace and a text encode to the byte followed by
    the encoding of the text. *)
Theorem HexifySpaces_encode_long_tokens_and_runs
    (unicode_decimal : N -> option N) (ds w s : Py.str) (b : byte) :
  ds <> [] ->
  Forall (fun c => is_Some (Py.digit_value c)) ds ->
  hex_value ds = Py.int_of_byte b ->
  w <> [] ->
  Forall (fun c => Py.isspace c = true) w ->
  HexifySpaces.encode unicode_decimal ds = Ok [b]
  /\ HexifySpaces.encode unicode_decimal (w ++ s)
     = HexifySpaces.encode unicode_decimal s
  /\ HexifySpaces.encode unicode_decimal (ds ++ w ++ s)
     = (fun out => b :: out) <$> HexifySpaces.encode unicode_decimal s.
Proof.
  intros Hne Hds Hval Hw Hsp.
  pose proof (hex_digits_token ds Hne Hds) as Htok.
  pose proof (int16_hex_digits unicode_decimal ds Hne Hds) as Hint.
  rewrite Hval in Hint. unfold HexifySpaces.encode. repeat split.
  - unfold Py.split. rewrite <- (app_nil_r ds), split_go_token by assumption.
    rewrite encode_tokens_cons, Hint, byte_of_int_of_byte. reflexivity.
  - unfold Py.split. now rewrite split_go_spaces.
  - rewrite split_token_run by assumption.
    rewrite encode_tokens_cons, Hint, byte_of_int_of_byte.
    destruct (mapM _ (Py.split s)); reflexivity.
Qed.

Lemma HexifySpaces_encode_long_tokens_and_runs_witness :
  HexifySpaces.encode arabic_indic (Py.lit "0041") = Ok [x41]
  /\ HexifySpaces.encode arabic_indic (Py.lit "  " ++ Py.lit "02")
     = HexifySpaces.encode arabic_indic (Py.lit "02")
  /\ HexifySpaces.encode arabic_indic
       (Py.lit "0041" ++ Py.lit "  " ++ Py.lit "02")
     = (fun out => x41 :: out) <$> HexifySpaces.encode arabic_indic (Py.lit "02").
Proof.
  apply (HexifySpaces_encode_long_tokens_and_runs
           arabic_indic (Py.lit "0041") (Py.lit "  ") (Py.lit "02") x41).
  - discriminate.
  - repeat constructor; eexists; reflexivity.
  - reflexivity.
  - discriminate.
  - repeat constructor.
Defined.

Example HexifySpaces_encode_0041 (unicode_decimal : N -> option N) :
  HexifySpaces.encode unicode_decimal (Py.lit "0041") = Ok [x41].
Proof. reflexivity. Qed.

Example HexifySpaces_encode_41_02 (unicode_decimal : N -> option N) :
  HexifySpaces.encode unicode_decimal (Py.lit "41  02") = Ok [x41; x02].
Proof. reflexivity. Qed.

Example HexifySpaces_encode_tab_newline (unicode_decimal : N -> option N) :
  HexifySpaces.encode unicode_decimal
    ([52; 49; 9; 10; 12288; 48; 50]%N) = Ok [x41; x02].
Proof. reflexivity. Qed.

(** Further texts [int(s, base=16)] accepts: prefix, sign, underscores,
    and digits of other scripts. *)
Example HexifySpaces_encode_other_literals :
  HexifySpaces.encode arabic_indic (Py.lit "0x41 +7 -0 f_f 0X_0a")
  = Ok [x41; x07; x00; xff; x0a]
  /\ HexifySpaces.encode arabic_indic [1636; 1633]%N = Ok [x41].
Proof. split; reflexivity. Qed.

Example HexifySpaces_encode_rejected (unicode_decimal : N -> option N) :
  HexifySpaces.encode unicode_decimal (Py.lit "100") = Raise ValueError
  /\ HexifySpaces.encode unicode_decimal (Py.lit "-1") = Raise ValueError
  /\ HexifySpaces.encode unicode_decimal (Py.lit "4__1") = Raise ValueError
  /\ HexifySpaces.encode unicode_decimal (Py.lit "41 0x") = Raise ValueError
  /\ HexifySpaces.encode unicode_decimal (Py.lit "41 zz") = Raise ValueError.
Proof. repeat split; reflexivity. Qed.

(** * HexifySpaces.encode: which tokens make it raise *)

Lemma plain_digit (c : N) :
  c ∈ Py.lit "0123456789abcdefABCDEF" -> is_Some (Py.digit_value c).
Proof.
  intros H. apply list_elem_of_In in H. cbn in H.
  repeat (destruct H as [<-|H]; [eexists; reflexivity|]).
  contradiction.
Qed.

(** A plain hexadecimal number for a byte is among the literals the parser
    reads. *)
Lemma plain_hex_byte_literal (unicode_decimal : N -> option N) (tok : Py.str) :
  plain_hex_byte tok -> byte_literal unicode_decimal tok.
Proof.
  intros [Hne [Hds Hv]]. apply byte_literal_int16.
  exists (hex_value tok). split; [|assumption].
  apply int16_hex_digits; [assumption|].
  eapply Forall_impl; [exact Hds|]. apply plain_digit.
Qed.

Lemma split_go_chars (s cur tok : Py.str) (c : N) :
  In tok (Py.split_go s cur) -> In c tok -> In c s \/ In c cur.
Proof.
  revert cur. induction s as [|x r IH]; intros cur Htok Hc.
  - cbn [Py.split_go] in Htok. destruct cur as [|y cur']; [contradiction|].
    destruct Htok as [<-|[]]. right. now apply in_rev.
  - cbn [Py.split_go] in Htok. destruct (Py.isspace x).
    + destruct cur as [|y cur'].
      * destruct (IH [] Htok Hc) as [H|[]]. left. now right.
      * destruct Htok as [<-|Htok]; [right; now apply in_rev|].
        destruct (IH [] Htok Hc) as [H|[]]. left. now right.
    + destruct (IH (x :: cur) Htok Hc) as [H|[<-|H]].
      * left. now right.
      * left. now left.
      * now right.
Qed.

Lemma ascii_token_to_ascii (unicode_decimal : N -> option N) (s tok : Py.str) :
  Forall (fun c => (c < 127)%N) s -> In tok (Py.split s) ->
  map (Py.to_ascii unicode_decimal) tok = tok.
Proof.
  intros Hs Htok. rewrite <- (map_id tok) at 2. apply map_ext_in.
  intros c Hc. destruct (split_go_chars s [] tok c Htok Hc) as [H|[]].
  rewrite Forall_forall in Hs. apply list_elem_of_In, Hs in H.
  unfold Py.to_ascii. destruct (N.ltb_spec c 127); [reflexivity|lia].
Qed.

(** C7, as the claim writes it, fails: the token [+7] is not a hexadecimal
    number in the plain sense, and [HexifySpaces.encode] does not raise on
    it but returns the byte 7. *)
Lemma HexifySpaces_encode_accepts_signed_token :
  Py.split (Py.lit "+7") = [Py.lit "+7"]
  /\ ~ plain_hex_byte (Py.lit "+7")
  /\ HexifySpaces.encode arabic_indic (Py.lit "+7") = Ok [x07]
  /\ ~ (HexifySpaces.encode arabic_indic (Py.lit "+7") = Raise ValueError
        <-> Exists (fun tok => ~ plain_hex_byte tok) (Py.split (Py.lit "+7"))).
Proof.
  assert (Hbad : ~ plain_hex_byte (Py.lit "+7")).
  { intros [_ [Hds _]]. inversion Hds as [|c r Hc _]; subst.
    apply plain_digit in Hc as [d Hd]. discriminate Hd. }
  split; [reflexivity|]. split; [exact Hbad|]. split; [reflexivity|].
  intros [_ H]. assert (Hr : HexifySpaces.encode arabic_indic (Py.lit "+7")
                             = Raise ValueError).
  { apply H. left. exact Hbad. }
  discriminate Hr.
Qed.

(** C7, as the code has it. [HexifySpaces.encode(s)] raises [ValueError]
    (the specification's InvalidHexToken) exactly when some
    whitespace-separated token of [s] is not a base-16 integer literal, as
    [int(token, 16)] reads one, with a value in 0..255: an optional sign, an
    optional prefix 0x or 0X, hexadecimal digits with single underscores
    allowed between them, decimal digits of other scripts standing for
    their ASCII digit. On an ASCII text the literal is read off the token as
    it stands. A plain hexadecimal number in 0..255 is such a literal, so a
    failure always comes with a token that is not one; the converse fails
    (tokens such as [+7] are accepted). The call returns a whole buffer, one
    byte per token, or raises: a failure carries no bytes. *)
Theorem HexifySpaces_encode_raises_iff_not_byte_literal
    (unicode_decimal : N -> option N) (s : Py.str) :
  (HexifySpaces.encode unicode_decimal s = Raise ValueError
   <-> Exists (fun tok => ~ byte_literal unicode_decimal tok) (Py.split s))
  /\ (Forall (fun c => (c < 127)%N) s ->
      (HexifySpaces.encode unicode_decimal s = Raise ValueError
       <-> Exists (fun tok => ~ exists v, hex_literal tok v /\ 0 <= v <= 255)
                  (Py.split s)))
  /\ (HexifySpaces.encode unicode_decimal s = Raise ValueError ->
      Exists (fun tok => ~ plain_hex_byte tok) (Py.split s))
  /\ ((exists out, HexifySpaces.encode unicode_decimal s = Ok out
                   /\ length out = length (Py.split s))
      \/ HexifySpaces.encode unicode_decimal s = Raise ValueError).
Proof.
  assert (Hiff : HexifySpaces.encode unicode_decimal s = Raise ValueError
                 <-> Exists (fun tok => ~ byte_literal unicode_decimal tok)
                            (Py.split s)).
  { unfold HexifySpaces.encode. split.
    - intros Hr.
      destruct (all_valid_or_some_invalid unicode_decimal (Py.split s))
        as [Hall|Hex]; [|assumption].
      apply encode_tokens_valid in Hall as [out Hout]. congruence.
    - intros Hex.
      destruct (encode_tokens unicode_decimal (Py.split s)) as [out|e] eqn:E.
      + apply encode_tokens_ok in E as [Hall _].
        rewrite Forall_forall in Hall.
        apply Exists_exists in Hex as [tok [Hin Hbad]].
        exfalso. apply Hbad, Hall. assumption.
      + apply encode_tokens_raises in E as ->. reflexivity. }
  split; [exact Hiff|]. split; [|split].
  - intros Hs. rewrite Hiff. rewrite !Exists_exists.
    split; intros [tok [Hin Hbad]]; exists tok; (split; [assumption|]);
      intros Hlit; apply Hbad; unfold byte_literal in *;
      pose proof Hin as Hin'; apply list_elem_of_In in Hin';
      now rewrite (ascii_token_to_ascii unicode_decimal s tok Hs Hin') in *.
  - intros Hr. apply Hiff in Hr. rewrite Exists_exists in *.
    destruct Hr as [tok [Hin Hbad]]. exists tok. split; [assumption|].
    intros Hplain. apply Hbad. now apply plain_hex_byte_literal.
  - unfold HexifySpaces.encode.
    destruct (encode_tokens unicode_decimal (Py.split s)) as [out|e] eqn:E.
    + left. exists out. split; [reflexivity|].
      now apply encode_tokens_ok in E as [_ Hlen].
    + right. apply encode_tokens_raises in E as ->. reflexivity.
Qed.

Lemma HexifySpaces_encode_raises_iff_not_byte_literal_witness :
  HexifySpaces.encode arabic_indic (Py.lit "41 zz") = Raise ValueError
  /\ Exists (fun tok => ~ exists v, hex_literal tok v /\ 0 <= v <= 255)
            (Py.split (Py.lit "41 zz"))
  /\ Exists (fun tok => ~ plain_hex_byte tok) (Py.split (Py.lit "41 zz")).
Proof.
  destruct (HexifySpaces_encode_raises_iff_not_byte_literal
              arabic_indic (Py.lit "41 zz")) as [_ [Hascii [Hplain _]]].
  split; [reflexivity|]. split.
  - apply Hascii; [|reflexivity].
    repeat (constructor; [reflexivity|]). constructor.
  - apply Hplain. reflexivity.
Defined.

(** * Further properties of the decoders *)

Lemma byte_to_N_inj (b1 b2 : byte) : Byte.to_N b1 = Byte.to_N b2 -> b1 = b2.
Proof.
  intros H. pose proof (Byte.of_to_N b1) as H1. rewrite H in H1.
  rewrite Byte.of_to_N in H1. congruence.
Qed.

Lemma map_inj_list {A B} (f : A -> B) (l1 l2 : list A) :
  (forall x y, f x = f y -> x = y) -> map f l1 = map f l2 -> l1 = l2.
Proof.
  intros Hf. revert l2. induction l1 as [|x l1 IH]; intros [|y l2] H;
    try discriminate; [reflexivity|].
  cbn in H. injection H as Hxy Hl. f_equal; auto.
Qed.

Lemma ASCII_decode_eq (bs : Py.bytes) :
  ASCII.decode bs = Ok (map Byte.to_N bs).
Proof.
  unfold ASCII.decode. rewrite mapM_result_map.
  rewrite (mapM_result_total _ (fun b => [Byte.to_N b])).
  2:{ intros b _. now rewrite chr_int_of_byte. }
  cbn [mbind result_bind]. rewrite join_empty_concat. f_equal.
  induction bs as [|b bs IH]; [reflexivity|]. cbn. now rewrite IH.
Qed.

(** X1. [ASCII.decode] never raises: the text has one character per byte,
    and the character at each index is the code point equal to the byte at
    that index. *)
Theorem ASCII_decode_code_points (bs : Py.bytes) :
  exists out,
    ASCII.decode bs = Ok out
    /\ length out = length bs
    /\ forall i, out !! i = Byte.to_N <$> bs !! i.
Proof.
  exists (map Byte.to_N bs). split; [apply ASCII_decode_eq|].
  split; [apply length_map|]. intros i. apply list_lookup_fmap.
Qed.

(** X2. [ASCII.decode] loses nothing: two buffers have the same text
    exactly when they are the same buffer. *)
Theorem ASCII_decode_injective (bs1 bs2 : Py.bytes) :
  ASCII.decode bs1 = ASCII.decode bs2 <-> bs1 = bs2.
Proof.
  split; [|now intros ->]. rewrite !ASCII_decode_eq. intros [= H].
  eapply map_inj_list; [|exact H]. apply byte_to_N_inj.
Qed.

(** X3. [MonospaceASCII.decode] is a map over the buffer: the text of a
    concatenation is the concatenation of the texts, and it never raises. *)
Theorem MonospaceASCII_decode_app (bs1 bs2 : Py.bytes) :
  MonospaceASCII.decode (bs1 ++ bs2)
  = (t1 ← MonospaceASCII.decode bs1;
     t2 ← MonospaceASCII.decode bs2;
     Ok (t1 ++ t2))
  /\ exists out, MonospaceASCII.decode (bs1 ++ bs2) = Ok out
                 /\ length out = (length bs1 + length bs2)%nat.
Proof.
  rewrite !MonospaceASCII_decode_eq. cbn [mbind result_bind].
  rewrite map_app. split; [reflexivity|].
  eexists. split; [reflexivity|]. now rewrite length_app, !length_map.
Qed.

Lemma monospace_char_inj (b1 b2 : byte) :
  (if Py.isprintable_latin1 (Byte.to_N b1) then Byte.to_N b1
   else (256 + Byte.to_N b1)%N)
  = (if Py.isprintable_latin1 (Byte.to_N b2) then Byte.to_N b2
     else (256 + Byte.to_N b2)%N)
  -> b1 = b2.
Proof.
  pose proof (Byte.to_N_bounded b1). pose proof (Byte.to_N_bounded b2).
  destruct (Py.isprintable_latin1 (Byte.to_N b1)),
           (Py.isprintable_latin1 (Byte.to_N b2));
    intros E; apply byte_to_N_inj; lia.
Qed.

(** X4. The substitution of [MonospaceASCII.decode] never collides: two
    buffers have the same text exactly when they are the same buffer. *)
Theorem MonospaceASCII_decode_injective (bs1 bs2 : Py.bytes) :
  MonospaceASCII.decode bs1 = MonospaceASCII.decode bs2 <-> bs1 = bs2.
Proof.
  split; [|now intros ->]. rewrite !MonospaceASCII_decode_eq. intros [= H].
  eapply map_inj_list; [|exact H]. apply monospace_char_inj.
Qed.

(** X5. [MonospaceASCII.decode] and [ASCII.decode] give the same text
    exactly on the buffers all of whose bytes are printable. *)
Theorem MonospaceASCII_decode_agrees_with_ASCII (bs : Py.bytes) :
  MonospaceASCII.decode bs = ASCII.decode bs
  <-> Forall (fun b => Py.isprintable_latin1 (Byte.to_N b) = true) bs.
Proof.
  rewrite MonospaceASCII_decode_eq, ASCII_decode_eq. split.
  - intros [= E]. induction bs as [|b bs IH]; [constructor|].
    cbn [map] in E. injection E as Eb E. constructor; [|now apply IH].
    destruct (Py.isprintable_latin1 (Byte.to_N b)); [reflexivity|lia].
  - intros H. f_equal. induction H as [|b bs Hb _ IH]; [reflexivity|].
    cbn [map]. now rewrite Hb, IH.
Qed.

Lemma int_of_byte_inj (b1 b2 : byte) :
  Py.int_of_byte b1 = Py.int_of_byte b2 -> b1 = b2.
Proof. unfold Py.int_of_byte. intros H. apply byte_to_N_inj. lia. Qed.

Lemma hex_pair_inj (b1 b2 : byte) : hex_pair b1 = hex_pair b2 -> b1 = b2.
Proof.
  intros H. apply int_of_byte_inj.
  pose proof (int16_hex_pair (fun _ => None) b1) as H1.
  rewrite H, int16_hex_pair in H1. congruence.
Qed.

(** X6. [Hexify.decode] loses nothing: two buffers have the same text
    exactly when they are the same buffer. *)
Theorem Hexify_decode_injective (bs1 bs2 : Py.bytes) :
  Hexify.decode bs1 = Hexify.decode bs2 <-> bs1 = bs2.
Proof.
  split; [|now intros ->]. rewrite !Hexify_decode_eq. intros [= H].
  revert bs2 H. induction bs1 as [|b1 bs1 IH]; intros [|b2 bs2] H;
    try discriminate; [reflexivity|].
  cbn [map concat] in H.
  assert (Hp : hex_pair b1 = hex_pair b2 /\
               concat (map hex_pair bs1) = concat (map hex_pair bs2)).
  { unfold hex_pair in *. cbn [app] in H. injection H as H1 H2 H3.
    split; [now f_equal; [|f_equal]|assumption]. }
  destruct Hp as [Hb Hr]. f_equal; [now apply hex_pair_inj | now apply IH].
Qed.

(** X7. [Hexify.decode] is a map over the buffer: the text of a
    concatenation is the concatenation of the texts. *)
Theorem Hexify_decode_app (bs1 bs2 : Py.bytes) :
  Hexify.decode (bs1 ++ bs2)
  = (t1 ← Hexify.decode bs1; t2 ← Hexify.decode bs2; Ok (t1 ++ t2)).
Proof.
  rewrite !Hexify_decode_eq. cbn [mbind result_bind].
  now rewrite map_app, concat_app.
Qed.

(** X8. Removing the spaces from the text of [HexifySpaces.decode] gives the
    text of [Hexify.decode]. *)
Theorem HexifySpaces_decode_without_spaces (bs : Py.bytes) :
  (t ← HexifySpaces.decode bs;
   Ok (List.filter (fun c => negb (c =? 32)%N) t))
  = Hexify.decode bs.
Proof.
  rewrite HexifySpaces_decode_eq, Hexify_decode_eq. cbn [mbind result_bind].
  f_equal. induction bs as [|b bs IH]; [reflexivity|].
  assert (Hb : List.filter (fun c => negb (c =? 32)%N) (hex_pair b) = hex_pair b).
  { destruct b; reflexivity. }
  destruct bs as [|b' bs].
  - cbn [map Py.join concat]. now rewrite app_nil_r.
  - change (Py.join (Py.lit " ") (map hex_pair (b :: b' :: bs)))
      with (hex_pair b ++ 32%N :: Py.join (Py.lit " ") (map hex_pair (b' :: bs))).
    rewrite List.filter_app, Hb. cbn [List.filter N.eqb Pos.eqb negb].
    rewrite IH. reflexivity.
Qed.

(** * Further properties of HexifySpaces.encode *)

Lemma mapM_result_app {A B} (f : A -> result B) l1 l2 :
  mapM f (l1 ++ l2) = a ← mapM f l1; b ← mapM f l2; Ok (a ++ b).
Proof.
  induction l1 as [|x l1 IH].
  - cbn [app]. change (mapM f []) with (Ok (@nil B)). cbn [mbind result_bind].
    destruct (mapM f l2); reflexivity.
  - cbn [app]. rewrite !mapM_result_cons, IH.
    destruct (f x); [|reflexivity]. cbn [mbind result_bind].
    destruct (mapM f l1); [|reflexivity]. cbn [mbind result_bind].
    destruct (mapM f l2); reflexivity.
Qed.

Lemma mapM_result_raise {A B} (f : A -> result B) l e :
  mapM f l = Raise e -> exists x, x ∈ l /\ f x = Raise e.
Proof.
  induction l as [|x l IH]; [discriminate|].
  rewrite mapM_result_cons. destruct (f x) as [y|e'] eqn:E.
  - cbn [mbind result_bind]. destruct (mapM f l) as [k|e'']; [discriminate|].
    cbn [mbind result_bind]. intros [= <-].
    destruct (IH eq_refl) as [x' [Hin Hx']]. exists x'. split; [now right|assumption].
  - cbn [mbind result_bind]. intros [= <-]. exists x. split; [left|assumption].
Qed.

(** Each token is turned into its byte on its own. *)
Lemma encode_tokens_per_token ud toks :
  encode_tokens ud toks
  = mapM (fun tok => v ← Py.int16 ud tok; Py.byte_of_int v) toks.
Proof.
  induction toks as [|tok toks IH]; [reflexivity|].
  rewrite encode_tokens_cons, mapM_result_cons, <- IH.
  destruct (Py.int16 ud tok) as [v|]; [|reflexivity].
  cbn [mbind result_bind].
  destruct (mapM (Py.int16 ud) toks) as [vs|e] eqn:Evs.
  - cbn [mbind result_bind]. destruct (Py.byte_of_int v); [|reflexivity].
    cbn [mbind result_bind]. destruct (Py.bytes_of_ints vs); reflexivity.
  - assert (e = ValueError) as ->.
    { apply (encode_tokens_raises ud toks). now rewrite Evs. }
    cbn [mbind result_bind].
    destruct (Py.byte_of_int v) as [b|e] eqn:Eb; [reflexivity|].
    now apply byte_of_int_raises in Eb as ->.
Qed.

Lemma split_go_at_space (s1 : Py.str) c (r cur : Py.str) :
  Py.isspace c = true ->
  Py.split_go (s1 ++ c :: r) cur = Py.split_go s1 cur ++ Py.split_go r [].
Proof.
  intros Hc. revert cur. induction s1 as [|x s1 IH]; intros cur.
  - cbn [app Py.split_go]. rewrite Hc. now destruct cur.
  - cbn [app Py.split_go]. destruct (Py.isspace x); [|apply IH].
    destruct cur; rewrite IH; reflexivity.
Qed.

Lemma split_at_run (s1 w s2 : Py.str) :
  w <> [] -> Forall (fun c => Py.isspace c = true) w ->
  Py.split (s1 ++ w ++ s2) = Py.split s1 ++ Py.split s2.
Proof.
  intros Hne Hw. destruct Hw as [|c w Hc Hw]; [contradiction|].
  unfold Py.split. cbn [app]. rewrite split_go_at_space by assumption.
  now rewrite split_go_spaces.
Qed.

(** X9. [HexifySpaces.encode] works token by token: for two texts with a
    non-empty run of whitespace between them, the result is the bytes of
    the first followed by the bytes of the second, and it raises when
    either part does. *)
Theorem HexifySpaces_encode_concat
    (unicode_decimal : N -> option N) (s1 w s2 : Py.str) :
  w <> [] -> Forall (fun c => Py.isspace c = true) w ->
  HexifySpaces.encode unicode_decimal (s1 ++ w ++ s2)
  = (b1 ← HexifySpaces.encode unicode_decimal s1;
     b2 ← HexifySpaces.encode unicode_decimal s2;
     Ok (b1 ++ b2)).
Proof.
  intros Hne Hw. unfold HexifySpaces.encode.
  rewrite split_at_run by assumption.
  rewrite !encode_tokens_per_token. apply mapM_result_app.
Qed.

Lemma HexifySpaces_encode_concat_witness :
  HexifySpaces.encode arabic_indic
    (Py.lit "41 0a" ++ [9; 10]%N ++ Py.lit "ff")
  = (b1 ← HexifySpaces.encode arabic_indic (Py.lit "41 0a");
     b2 ← HexifySpaces.encode arabic_indic (Py.lit "ff");
     Ok (b1 ++ b2)).
Proof.
  apply (HexifySpaces_encode_concat arabic_indic
           (Py.lit "41 0a") [9; 10]%N (Py.lit "ff")).
  - discriminate.
  - repeat constructor.
Defined.

(** X10. A text of whitespace only, the empty text included, encodes to the
    empty buffer. *)
Theorem HexifySpaces_encode_blank
    (unicode_decimal : N -> option N) (w : Py.str) :
  Forall (fun c => Py.isspace c = true) w ->
  HexifySpaces.encode unicode_decimal w = Ok [].
Proof.
  intros Hw. unfold HexifySpaces.encode, Py.split.
  rewrite <- (app_nil_r w), split_go_spaces by assumption. reflexivity.
Qed.

Lemma HexifySpaces_encode_blank_witness :
  HexifySpaces.encode arabic_indic [32; 9; 10; 160; 12288]%N = Ok [].
Proof.
  apply (HexifySpaces_encode_blank arabic_indic [32; 9; 10; 160; 12288]%N).
  repeat constructor.
Defined.

(** * Further properties of Hexify.encode *)

Lemma Hexify_encode_length_witness :
  Hexify.encode arabic_indic (Py.lit "410a") = Ok [x41; x10; x0a; x0a]
  /\ length [x41; x10; x0a; x0a] = length (Py.lit "410a").
Proof.
  split; [reflexivity|].
  apply (Hexify_encode_length arabic_indic (Py.lit "410a")
           [x41; x10; x0a; x0a]).
  reflexivity.
Defined.

Lemma Hexify_encode_raises (unicode_decimal : N -> option N) s e :
  Hexify.encode unicode_decimal s = Raise e -> e = ValueError.
Proof.
  unfold Hexify.encode.
  destruct (mapM _ _) as [ints|e'] eqn:E; cbn [mbind result_bind].
  - intros H. apply mapM_result_raise in H as [i [_ Hi]].
    eapply byte_of_int_raises, Hi.
  - intros [= <-]. apply mapM_result_raise in E as [i [_ Hi]].
    eapply int16_raises_ValueError, Hi.
Qed.

(** * Further properties of Mt2GarbageTextPair.decode *)

Lemma MajinTenseiIIByte_decode_one_raises (transliter : gmap Z Py.str) b e :
  MajinTenseiIIByte.decode transliter [b] = Raise e ->
  e = KeyError /\ transliter !! Py.int_of_byte b = None.
Proof.
  unfold MajinTenseiIIByte.decode. cbn [Py.first mbind result_bind].
  destruct (transliter !! Py.int_of_byte b); [discriminate|].
  intros [= <-]. now split.
Qed.

Lemma Mt2GarbageTextPair_decode_raises_at
    (transliter : gmap Z Py.str) (bs : Py.bytes) e :
  Mt2GarbageTextPair.decode transliter bs = Raise e ->
  e = KeyError
  /\ exists i b, bs !! (2 * i)%nat = Some b
                 /\ transliter !! Py.int_of_byte b = None.
Proof.
  rewrite Mt2GarbageTextPair_decode_eq, MonospaceASCII_decode_eq.
  cbn [mbind result_bind].
  destruct (mapM _ _) as [texts|e'] eqn:E; [discriminate|].
  cbn [mbind result_bind]. intros [= <-].
  apply mapM_result_raise in E as [b [Hin Hb]].
  apply MajinTenseiIIByte_decode_one_raises in Hb as [-> Hb].
  split; [reflexivity|].
  apply list_elem_of_lookup in Hin as [i Hi].
  rewrite even_slice_lookup in Hi. eauto.
Qed.

(** X11. [Mt2GarbageTextPair.decode] raises nothing but [KeyError], and
    raises it exactly when some byte at an even index has no entry in the
    table; bytes at odd indices and the length of the buffer never make it
    raise. *)
Theorem Mt2GarbageTextPair_decode_KeyError_iff
    (transliter : gmap Z Py.str) (bs : Py.bytes) :
  (forall e, Mt2GarbageTextPair.decode transliter bs = Raise e -> e = KeyError)
  /\ (Mt2GarbageTextPair.decode transliter bs = Raise KeyError
      <-> exists i b, bs !! (2 * i)%nat = Some b
                      /\ transliter !! Py.int_of_byte b = None).
Proof.
  split; [|split].
  - intros e H. now apply Mt2GarbageTextPair_decode_raises_at in H.
  - intros H. now apply Mt2GarbageTextPair_decode_raises_at in H.
  - intros [i [b [Hi Hb]]].
    destruct (Mt2GarbageTextPair.decode transliter bs) as [out|e] eqn:E.
    + exfalso. rewrite Mt2GarbageTextPair_decode_eq, MonospaceASCII_decode_eq in E.
      cbn [mbind result_bind] in E.
      destruct (mapM _ _) as [texts|] eqn:Et; [|discriminate].
      pose proof (f_equal is_ok Et) as Hok.
      rewrite mapM_result_is_ok in Hok. cbn [is_ok] in Hok.
      rewrite forallb_forall in Hok. specialize (Hok b).
      assert (Hin : In b (Py.slice_step2 0 bs)).
      { apply list_elem_of_In, list_elem_of_lookup. exists i.
        rewrite even_slice_lookup. exact Hi. }
      specialize (Hok Hin). unfold MajinTenseiIIByte.decode in Hok.
      cbn [Py.first mbind result_bind] in Hok. rewrite Hb in Hok. discriminate.
    + now apply Mt2GarbageTextPair_decode_raises_at in E as [-> _].
Qed.

Lemma step2_length {A} (l : list A) :
  length (Py.step2 l) = Nat.div2 (S (length l)).
Proof.
  assert (H : forall n (l : list A), (length l <= n)%nat ->
                length (Py.step2 l) = Nat.div2 (S (length l))).
  { intros n. induction n as [|n IH]; intros [|x [|y r]] Hl;
      try reflexivity; cbn in Hl; try lia.
    cbn [Py.step2 length]. rewrite IH by lia. reflexivity. }
  now apply (H (length l)).
Qed.

Lemma odd_slice_length {A} (l : list A) :
  length (Py.slice_step2 1 l) = Nat.div2 (length l).
Proof.
  unfold Py.slice_step2. rewrite step2_length.
  destruct l as [|x r]; [reflexivity|]. cbn [drop length]. now rewrite drop_0.
Qed.

(** X12. When [Mt2GarbageTextPair.decode] returns, the first [len(bs) // 2]
    characters of the text are the garbage string, one character per
    odd-index byte, and the rest is the table entries of the even-index
    bytes in order. *)
Theorem Mt2GarbageTextPair_decode_split_point
    (transliter : gmap Z Py.str) (bs : Py.bytes) (out : Py.str) :
  Mt2GarbageTextPair.decode transliter bs = Ok out ->
  MonospaceASCII.decode (Py.slice_step2 1 bs)
  = Ok (take (Nat.div2 (length bs)) out)
  /\ (texts ← mapM (fun b => MajinTenseiIIByte.decode transliter [b])
                   (Py.slice_step2 0 bs);
      Ok (concat texts)) = Ok (drop (Nat.div2 (length bs)) out).
Proof.
  rewrite Mt2GarbageTextPair_decode_eq.
  destruct (MonospaceASCII.decode _) as [garbage|] eqn:Eg; [|discriminate].
  cbn [mbind result_bind].
  destruct (mapM _ _) as [texts|]; [|discriminate].
  cbn [mbind result_bind]. intros [= <-].
  assert (Hlen : length garbage = Nat.div2 (length bs)).
  { rewrite MonospaceASCII_decode_eq in Eg. injection Eg as <-.
    rewrite length_map. apply odd_slice_length. }
  rewrite <- Hlen. split; f_equal.
  - now rewrite take_app_length.
  - now rewrite drop_app_length.
Qed.

Lemma Mt2GarbageTextPair_decode_split_point_witness :
  MonospaceASCII.decode (Py.slice_step2 1 [x41; x20; x41; x01; x41])
  = Ok (take (Nat.div2 (length [x41; x20; x41; x01; x41]))
             [32; 257; 12354; 12354; 12354]%N)
  /\ (texts ← mapM (fun b => MajinTenseiIIByte.decode sample_transliter [b])
                   (Py.slice_step2 0 [x41; x20; x41; x01; x41]);
      Ok (concat texts))
     = Ok (drop (Nat.div2 (length [x41; x20; x41; x01; x41]))
                [32; 257; 12354; 12354; 12354]%N).
Proof.
  apply (Mt2GarbageTextPair_decode_split_point sample_transliter
           [x41; x20; x41; x01; x41] [32; 257; 12354; 12354; 12354]%N).
  vm_compute. reflexivity.
Defined.

(** * What a call through a class can raise *)

(** X13. Decoding through any class raises only [IndexError], and then the
    buffer is empty and the class is one of the two single-byte codecs, or
    [KeyError], and then the class is one of the two table codecs: Hexify,
    HexifySpaces, ASCII and MonospaceASCII decode every buffer, and no
    [decode] call reaches the base class. *)
Theorem call_decode_raises
    (transliter : gmap Z Py.str) (cls : class) (bs : Py.bytes) (e : exn) :
  call_decode transliter cls bs = Raise e ->
  (e = IndexError /\ bs = []
   /\ (cls = MonospaceASCIIByte \/ cls = MajinTenseiIIByte))
  \/ (e = KeyError
      /\ (cls = MajinTenseiIIByte \/ cls = Mt2GarbageTextPair)).
Proof.
  unfold call_decode. destruct cls; cbn [own_decode].
  - rewrite Hexify_decode_eq. discriminate.
  - rewrite HexifySpaces_decode_eq. discriminate.
  - rewrite ASCII_decode_eq. discriminate.
  - destruct bs as [|b rest].
    + intros [= <-]. left. auto.
    + rewrite MonospaceASCIIByte_decode_cons. discriminate.
  - rewrite MonospaceASCII_decode_eq. discriminate.
  - destruct bs as [|b rest].
    + intros [= <-]. left. auto.
    + unfold MajinTenseiIIByte.decode. cbn [Py.first mbind result_bind].
      destruct (transliter !! Py.int_of_byte b); [discriminate|].
      intros [= <-]. right. auto.
  - intros [-> _]%Mt2GarbageTextPair_decode_raises_at. right. auto.
Qed.

Lemma call_decode_raises_witness :
  call_decode sample_transliter MajinTenseiIIByte [] = Raise IndexError
  /\ ((IndexError = IndexError /\ @nil byte = []
       /\ (MajinTenseiIIByte = MonospaceASCIIByte
           \/ MajinTenseiIIByte = MajinTenseiIIByte))
      \/ (IndexError = KeyError
          /\ (MajinTenseiIIByte = MajinTenseiIIByte
              \/ MajinTenseiIIByte = Mt2GarbageTextPair))).
Proof.
  split; [reflexivity|].
  apply (call_decode_raises sample_transliter MajinTenseiIIByte [] IndexError).
  reflexivity.
Defined.

(** X14. Encoding through any class raises only [ValueError], from Hexify
    or HexifySpaces, or the [NotImplementedError] of the base class, from a
    class that defines no [encode]. *)
Theorem call_encode_raises
    (unicode_decimal : N -> option N) (cls : class) (s : Py.str) (e : exn) :
  call_encode unicode_decimal cls s = Raise e ->
  (e = ValueError /\ (cls = Hexify \/ cls = HexifySpaces))
  \/ (e = NotImplementedError
            ("Encoder for " ++ class_name cls ++ " not implemented.")
      /\ cls ∈ decode_only).
Proof.
  unfold call_encode.
  destruct cls; cbn [own_encode];
    try (intros [= <-]; right; split;
         [reflexivity | unfold decode_only; repeat constructor]).
  - intros ->%Hexify_encode_raises. left. auto.
  - unfold HexifySpaces.encode. intros ->%encode_tokens_raises. left. auto.
Qed.

Lemma call_encode_raises_witness :
  call_encode arabic_indic HexifySpaces (Py.lit "41 zz") = Raise ValueError
  /\ ((ValueError = ValueError
       /\ (HexifySpaces = Hexify \/ HexifySpaces = HexifySpaces))
      \/ (ValueError = NotImplementedError
                         ("Encoder for " ++ class_name HexifySpaces
                          ++ " not implemented.")
          /\ HexifySpaces ∈ decode_only)).
Proof.
  split; [reflexivity|].
  apply (call_encode_raises arabic_indic HexifySpaces (Py.lit "41 zz")
           ValueError).
  reflexivity.
Defined.

(** * The dictionary of classes *)

(** X15. [names] maps the name of each of the seven classes to that class
    and has no other key: looking up any other name raises [KeyError]. *)
Theorem names_lookup (name : string) :
  (forall cls, dict_getitem names name = Ok cls <-> name = class_name cls)
  /\ (dict_getitem names name = Raise KeyError
      <-> forall cls, name <> class_name cls).
Proof.
  unfold names. cbn [dict_getitem].
  repeat match goal with
         | |- context [String.eqb ?k name] =>
             destruct (String.eqb_spec k name) as [<-|?]
         end.
  all: split;
    [ intros cls; split;
      [ intros [= <-]; reflexivity || (exfalso; discriminate)
      | destruct cls; cbn; intros H; try reflexivity; try discriminate;
        exfalso; congruence ]
    | split;
      [ intros H; try discriminate H; intros cls; destruct cls; cbn; congruence
      | intros H; try reflexivity;
        exfalso;
        first [ apply (H Hexify); reflexivity
              | apply (H HexifySpaces); reflexivity
              | apply (H ASCII); reflexivity
              | apply (H MonospaceASCIIByte); reflexivity
              | apply (H MonospaceASCII); reflexivity
              | apply (H MajinTenseiIIByte); reflexivity
              | apply (H Mt2GarbageTextPair); reflexivity ] ] ].
Qed.

(** * Hexify.encode after Hexify.decode *)











(** * Smaller relations between the codecs *)

(** X18. [HexifySpaces.encode] reads back what [hex] prints: for every byte
    [b], the text of [hex(b)], with its prefix 0x and lowercase digits, and
    that text without the prefix both encode to the buffer of [b] alone. *)
Theorem HexifySpaces_encode_hex_output
    (unicode_decimal : N -> option N) (b : byte) :
  HexifySpaces.encode unicode_decimal (Py.hex (Py.int_of_byte b)) = Ok [b]
  /\ HexifySpaces.encode unicode_decimal
       (Py.slice_from 2 (Py.hex (Py.int_of_byte b))) = Ok [b].
Proof. destruct b; split; vm_compute; reflexivity. Qed.

(** X19. On a non-empty buffer [MonospaceASCIIByte.decode] is
    [MonospaceASCII.decode] of the first byte alone. *)
Theorem MonospaceASCIIByte_decode_is_MonospaceASCII_of_first
    (b : byte) (rest : Py.bytes) :
  MonospaceASCIIByte.decode (b :: rest) = MonospaceASCII.decode [b]
  /\ MonospaceASCII.decode (b :: rest)
     = (c ← MonospaceASCIIByte.decode (b :: rest);
        t ← MonospaceASCII.decode rest;
        Ok (c ++ t)).
Proof.
  rewrite !MonospaceASCII_decode_eq, MonospaceASCIIByte_decode_cons.
  split; reflexivity.
Qed.

(** X20. On the empty buffer [Mt2GarbageTextPair.decode] returns the empty
    text, and on a buffer of one byte it is [MajinTenseiIIByte.decode] of
    that buffer: the table entry of the byte, or [KeyError]. *)
Theorem Mt2GarbageTextPair_decode_short
    (transliter : gmap Z Py.str) (t0 : byte) :
  Mt2GarbageTextPair.decode transliter [] = Ok []
  /\ Mt2GarbageTextPair.decode transliter [t0]
     = MajinTenseiIIByte.decode transliter [t0].
Proof.
  split; [reflexivity|]. rewrite Mt2GarbageTextPair_decode_eq.
  change (Py.slice_step2 1 [t0]) with (@nil byte).
  change (Py.slice_step2 0 [t0]) with [t0].
  rewrite MonospaceASCII_decode_eq. cbn [map mbind result_bind].
  rewrite mapM_result_cons.
  destruct (MajinTenseiIIByte.decode transliter [t0]) as [t|]; [|reflexivity].
  cbn. now rewrite app_nil_r.
Qed.
